(** * SingleStore DDL utilities: a shallow embedding of [ibis_singlestore/ddl.py]

    The statement descriptors of [ddl.py] are records, their [compile],
    [to_ddl] and [_pieces] methods are functions over those records, and a
    raised Python exception is the [Raise] outcome of a small error monad.

    Conventions of the embedding:
    - a Python [str] is a Rocq [string] holding the UTF-8 encoding of the text
      (every [str] without lone surrogates has exactly one such encoding, and
      concatenation, [join] and [format] commute with it);
    - a Python [bytes] is a [list byte];
    - [Optional[T]] is [option T], [None] being Python's [None];
    - a generator is the list of the values it yields together with the
      exception, if any, that ends it;
    - the helpers imported from the host framework ([ibis.backends.base.sql])
      are the fields of the class [Host]. *)

From Stdlib Require Import String Ascii Strings.Byte DecimalString List Bool Arith NArith ZArith Lia.
From Stdlib Require Import Sorted Permutation.
Import ListNotations.

Local Open Scope list_scope.
Local Open Scope string_scope.

(** ** Exceptions and the error monad *)

Inductive exn : Type :=
| NotImplementedError
| ValueError (msg : string)
| IndexError
| AttributeError (attr : string)
| UnicodeDecodeError
| TypeError (msg : string)
| UnsupportedBackendType (name : string).

Inductive result (A : Type) : Type :=
| OK (a : A)
| Raise (e : exn).

Arguments OK {A} a.
Arguments Raise {A} e.

Definition bind {A B : Type} (r : result A) (k : A -> result B) : result B :=
  match r with
  | OK a => k a
  | Raise e => Raise e
  end.

Notation "'let*' x ':=' r 'in' k" := (bind r (fun x => k))
  (at level 10, x name, r at level 100, k at level 200).

Definition succeeds {A : Type} (r : result A) : Prop := exists a, r = OK a.

Definition fails {A : Type} (r : result A) : Prop := exists e, r = Raise e.

(** [[f(x) for x in xs]]: the elements are evaluated from left to right and
    the first exception ends the comprehension. *)
Fixpoint mapM {A B : Type} (f : A -> result B) (xs : list A) : result (list B) :=
  match xs with
  | [] => OK []
  | x :: xs' =>
      let* y := f x in
      let* ys := mapM f xs' in
      OK (y :: ys)
  end.

(** ** Generators *)

Module Gen.

(** The run of a generator body: what it yielded, and the exception that
    ended it ([None] when the body ran to its end). *)
Record t (Y : Type) : Type := mk { yielded : list Y; ended : option exn }.

Arguments mk {Y} yielded ended.
Arguments yielded {Y} _.
Arguments ended {Y} _.

Definition done {Y : Type} : t Y := mk [] None.

Definition yield {Y : Type} (y : Y) : t Y := mk [y] None.

Definition raise {Y : Type} (e : exn) : t Y := mk [] (Some e).

(** Sequential composition of two pieces of a generator body. *)
Definition seq {Y : Type} (g1 g2 : t Y) : t Y :=
  match ended g1 with
  | Some e => g1
  | None => mk (yielded g1 ++ yielded g2) (ended g2)
  end.

(** A consumer that exhausts the generator ([list(g)], [sep.join(g)]):
    it sees the exception when there is one, the yielded values otherwise. *)
Definition collect {Y : Type} (g : t Y) : result (list Y) :=
  match ended g with
  | Some e => Raise e
  | None => OK (yielded g)
  end.

End Gen.

Notation "g1 ';;' g2" := (Gen.seq g1 g2)
  (at level 61, right associativity).

(** ** Python built-ins used by the module *)

(** [sep.join(xs)] *)
Fixpoint join (sep : string) (xs : list string) : string :=
  match xs with
  | [] => ""
  | [x] => x
  | x :: xs' => x ++ sep ++ join sep xs'
  end.

(** [string.ascii_letters] *)
Definition ascii_letters : string :=
  "abcdefghijklmnopqrstuvwxyzABCDEFGHIJKLMNOPQRSTUVWXYZ".

(** [s[i]] for a non-negative index: [IndexError] out of range. *)
Definition index (s : string) (i : nat) : result string :=
  match String.get i s with
  | Some c => OK (String c "")
  | None => Raise IndexError
  end.

(** [enumerate(xs)] *)
Definition enumerate {A : Type} (xs : list A) : list (nat * A) :=
  combine (seq 0 (length xs)) xs.

(** *** Text: UTF-8, code points, hexadecimal digits *)

Module Text.

Local Open Scope N_scope.

Definition octets (s : string) : list N := map N_of_ascii (list_ascii_of_string s).

Definition of_octets (bs : list N) : string := string_of_list_ascii (map ascii_of_N bs).

Definition is_cont (b : N) : bool := (0x80 <=? b) && (b <=? 0xBF).

Definition between (lo b hi : N) : bool := (lo <=? b) && (b <=? hi).

Definition cont (b : N) : N := N.land b 0x3F.

(** The strict UTF-8 decoder of [str(b, 'utf-8')]: [None] stands for
    [UnicodeDecodeError] (a stray or missing continuation octet, an overlong
    form, a surrogate, a code point above U+10FFFF). *)
Fixpoint utf8_decode (bs : list N) : option (list N) :=
  match bs with
  | [] => Some []
  | b0 :: r0 =>
      if b0 <? 0x80 then option_map (cons b0) (utf8_decode r0)
      else if between 0xC2 b0 0xDF then
        match r0 with
        | b1 :: r1 =>
            if is_cont b1
            then option_map (cons (N.lor (N.shiftl (N.land b0 0x1F) 6) (cont b1)))
                            (utf8_decode r1)
            else None
        | _ => None
        end
      else if between 0xE0 b0 0xEF then
        match r0 with
        | b1 :: b2 :: r2 =>
            let lo := if b0 =? 0xE0 then 0xA0 else 0x80 in
            let hi := if b0 =? 0xED then 0x9F else 0xBF in
            if between lo b1 hi && is_cont b2
            then option_map
                   (cons (N.lor (N.shiftl (N.land b0 0x0F) 12)
                                (N.lor (N.shiftl (cont b1) 6) (cont b2))))
                   (utf8_decode r2)
            else None
        | _ => None
        end
      else if between 0xF0 b0 0xF4 then
        match r0 with
        | b1 :: b2 :: b3 :: r3 =>
            let lo := if b0 =? 0xF0 then 0x90 else 0x80 in
            let hi := if b0 =? 0xF4 then 0x8F else 0xBF in
            if between lo b1 hi && is_cont b2 && is_cont b3
            then option_map
                   (cons (N.lor (N.shiftl (N.land b0 0x07) 18)
                                (N.lor (N.shiftl (cont b1) 12)
                                       (N.lor (N.shiftl (cont b2) 6) (cont b3)))))
                   (utf8_decode r3)
            else None
        | _ => None
        end
      else None
  end.

(** The UTF-8 encoding of one code point. *)
Definition utf8_encode1 (cp : N) : list N :=
  if cp <? 0x80 then [cp]
  else if cp <? 0x800 then
    [N.lor 0xC0 (N.shiftr cp 6); N.lor 0x80 (cont cp)]
  else if cp <? 0x10000 then
    [N.lor 0xE0 (N.shiftr cp 12); N.lor 0x80 (cont (N.shiftr cp 6)); N.lor 0x80 (cont cp)]
  else
    [N.lor 0xF0 (N.shiftr cp 18); N.lor 0x80 (cont (N.shiftr cp 12));
     N.lor 0x80 (cont (N.shiftr cp 6)); N.lor 0x80 (cont cp)].

Definition chr (cp : N) : string := of_octets (utf8_encode1 cp).

(** The code points of a [str]. A [string] that is not UTF-8 stands for no
    [str]; its octets are then read one by one. *)
Definition codepoints (s : string) : list N :=
  match utf8_decode (octets s) with
  | Some cps => cps
  | None => octets s
  end.

Definition hexdigits : string := "0123456789abcdef".

Definition hexdigit (d : N) : ascii :=
  match String.get (N.to_nat d) hexdigits with
  | Some c => c
  | None => "0"%char
  end.

(** [n] in lowercase hexadecimal on exactly [width] digits (the low ones). *)
Fixpoint hex (width : nat) (n : N) : string :=
  match width with
  | O => ""
  | S w => hex w (N.shiftr n 4) ++ String (hexdigit (N.land n 0xF)) ""
  end.

Definition all_ascii (s : string) : bool := forallb (fun b => b <? 0x80) (octets s).

End Text.

(** *** Values a function's [library] attribute holds *)

Inductive pyval : Type :=
| PyNone
| PyStr (s : string)
| PyBytes (b : list byte).

(** Truth value of a [pyval]: [None], [''] and [b''] are false. *)
Definition truthy (v : pyval) : bool :=
  match v with
  | PyNone => false
  | PyStr s => negb (s =? "")
  | PyBytes b => match b with [] => false | _ => true end
  end.

(** [x or ''] *)
Definition or_empty (v : pyval) : pyval := if truthy v then v else PyStr "".

(** [str(v)] for a value that is not [bytes]. *)
Definition str_of (v : pyval) : string :=
  match v with
  | PyNone => "None"
  | PyStr s => s
  | PyBytes b => string_of_list_byte b
  end.

(** [str(b, 'utf-8')] *)
Definition decode_utf8 (b : list byte) : result string :=
  match Text.utf8_decode (map Byte.to_N b) with
  | Some _ => OK (string_of_list_byte b)
  | None => Raise UnicodeDecodeError
  end.

(** [bytes(s, 'utf-8')] *)
Definition encode_utf8 (s : string) : list byte := list_byte_of_string s.

(** [a2u(value)], with the default encoding: ensure the value is a [str]. *)
Definition a2u (value : pyval) : result string :=
  match value with
  | PyBytes b => decode_utf8 b
  | _ => OK (str_of value)
  end.

(** Line feed, double quote, single quote and backslash, as one-character
    strings. *)
Definition LF : string := String "010"%char "".
Definition DQ : string := String "034"%char "".
Definition SQ : string := "'".
Definition BS : string := "\".

(** *** [base64.b64encode] *)

Module Base64.

Local Open Scope N_scope.

Definition alphabet : string :=
  "ABCDEFGHIJKLMNOPQRSTUVWXYZabcdefghijklmnopqrstuvwxyz0123456789+/".

Definition pad : ascii := "="%char.

Definition digit (n : N) : ascii :=
  match String.get (N.to_nat n) alphabet with
  | Some c => c
  | None => pad
  end.

(** The [k]-th six-bit group, counted from the right, of a 24-bit group. *)
Definition sextet (w : N) (k : N) : ascii := digit (N.land (N.shiftr w (6 * k)) 0x3F).

Definition pack (a b c : byte) : N :=
  N.lor (N.shiftl (Byte.to_N a) 16) (N.lor (N.shiftl (Byte.to_N b) 8) (Byte.to_N c)).

Fixpoint encode_chars (bs : list byte) : list ascii :=
  match bs with
  | [] => []
  | [a] =>
      let w := pack a x00 x00 in
      [sextet w 3; sextet w 2; pad; pad]
  | [a; b] =>
      let w := pack a b x00 in
      [sextet w 3; sextet w 2; sextet w 1; pad]
  | a :: b :: c :: rest =>
      let w := pack a b c in
      sextet w 3 :: sextet w 2 :: sextet w 1 :: sextet w 0 :: encode_chars rest
  end.

(** [base64.b64encode(s)]: a [bytes] value. *)
Definition b64encode (bs : list byte) : list byte := map byte_of_ascii (encode_chars bs).

End Base64.

(** *** [repr] *)

Module Repr.

Local Open Scope N_scope.

Definition mem (c : N) (cs : list N) : bool := existsb (N.eqb c) cs.

(** Single quotes, unless the text has a single quote and no double quote. *)
Definition quote_for (cs : list N) : N :=
  if mem 39 cs && negb (mem 34 cs) then 34 else 39.

Section WithUnicodeData.

(** [str.isprintable] of one character, asked only above U+007F. *)
Variable isprintable : N -> bool.

Definition str_char (quote ch : N) : string :=
  if (ch =? quote) || (ch =? 92) then BS ++ Text.chr ch
  else if ch =? 9 then "\t"
  else if ch =? 10 then "\n"
  else if ch =? 13 then "\r"
  else if (ch <? 32) || (ch =? 127) then "\x" ++ Text.hex 2 ch
  else if ch <? 127 then Text.chr ch
  else if isprintable ch then Text.chr ch
  else if ch <=? 0xFF then "\x" ++ Text.hex 2 ch
  else if ch <=? 0xFFFF then "\u" ++ Text.hex 4 ch
  else "\U" ++ Text.hex 8 ch.

(** [repr(s)] for a [str]. *)
Definition of_str (s : string) : string :=
  let cs := Text.codepoints s in
  let q := quote_for cs in
  Text.chr q ++ String.concat "" (map (str_char q) cs) ++ Text.chr q.

Definition bytes_char (quote c : N) : string :=
  if (c =? quote) || (c =? 92) then BS ++ Text.of_octets [c]
  else if c =? 9 then "\t"
  else if c =? 10 then "\n"
  else if c =? 13 then "\r"
  else if (c <? 32) || (127 <=? c) then "\x" ++ Text.hex 2 c
  else Text.of_octets [c].

(** [repr(b)] for a [bytes]. *)
Definition of_bytes (b : list byte) : string :=
  let cs := map Byte.to_N b in
  let q := quote_for cs in
  "b" ++ Text.chr q ++ String.concat "" (map (bytes_char q) cs) ++ Text.chr q.

(** ['{!r}'.format(v)] *)
Definition repr (v : pyval) : string :=
  match v with
  | PyNone => "None"
  | PyStr s => of_str s
  | PyBytes b => of_bytes b
  end.

End WithUnicodeData.

End Repr.

(** *** [str.splitlines] and [str.rstrip] *)

Module Lines.

Local Open Scope N_scope.

(** The characters [splitlines] breaks a line at. *)
Definition is_linebreak (c : N) : bool :=
  Text.between 0x0A c 0x0D || Text.between 0x1C c 0x1E
  || (c =? 0x85) || (c =? 0x2028) || (c =? 0x2029).

(** The characters [rstrip()] removes. *)
Definition is_space (c : N) : bool :=
  Text.between 0x09 c 0x0D || Text.between 0x1C c 0x20
  || (c =? 0x85) || (c =? 0xA0) || (c =? 0x1680) || Text.between 0x2000 c 0x200A
  || (c =? 0x2028) || (c =? 0x2029) || (c =? 0x202F) || (c =? 0x205F) || (c =? 0x3000).

(** [cur] is the line under way, last character first. A carriage return
    followed by a line feed is one break; a text that ends on a break has no
    empty last line. *)
Fixpoint split (cur cs : list N) : list (list N) :=
  match cs with
  | [] => match cur with [] => [] | _ => [rev cur] end
  | c :: rest =>
      if is_linebreak c then
        match rest with
        | c' :: rest' =>
            if (c =? 0x0D) && (c' =? 0x0A)
            then rev cur :: split [] rest'
            else rev cur :: split [] rest
        | [] => rev cur :: split [] rest
        end
      else split (c :: cur) rest
  end.

Fixpoint drop_spaces (cs : list N) : list N :=
  match cs with
  | [] => []
  | c :: rest => if is_space c then drop_spaces rest else cs
  end.

Definition text (cs : list N) : string := String.concat "" (map Text.chr cs).

(** [s.splitlines()] *)
Definition splitlines (s : string) : list string :=
  map text (split [] (Text.codepoints s)).

(** [s.rstrip()] *)
Definition rstrip (s : string) : string :=
  text (rev (drop_spaces (rev (Text.codepoints s)))).

End Lines.

(** *** [json.dumps] *)

Module Json.

(** The Python values [json.dumps] is given here: [None], booleans, integers,
    strings, lists, and dictionaries with string keys (a list of items in
    insertion order, the keys distinct). *)
#[warnings="-register-all"]
Inductive value : Type :=
| JNone
| JBool (b : bool)
| JInt (z : Z)
| JStr (s : string)
| JList (xs : list value)
| JDict (items : list (string * value)).

Local Open Scope N_scope.

(** One character of a string literal under [ensure_ascii=True]. *)
Definition escape (ch : N) : string :=
  if ch =? 92 then BS ++ BS
  else if ch =? 34 then BS ++ DQ
  else if ch =? 8 then "\b"
  else if ch =? 12 then "\f"
  else if ch =? 10 then "\n"
  else if ch =? 13 then "\r"
  else if ch =? 9 then "\t"
  else if Text.between 0x20 ch 0x7E then Text.chr ch
  else if ch <? 0x10000 then "\u" ++ Text.hex 4 ch
  else
    let v := ch - 0x10000 in
    let s1 := N.lor 0xD800 (N.land (N.shiftr v 10) 0x3FF) in
    let s2 := N.lor 0xDC00 (N.land v 0x3FF) in
    "\u" ++ Text.hex 4 s1 ++ "\u" ++ Text.hex 4 s2.

(** [encode_basestring_ascii] *)
Definition encode_str (s : string) : string :=
  DQ ++ String.concat "" (map escape (Text.codepoints s)) ++ DQ.

(** [int.__repr__] *)
Definition encode_int (z : Z) : string :=
  NilZero.string_of_int (Z.to_int z).

Local Open Scope nat_scope.

(** Insertion of an item before the first item whose key is not smaller. *)
Fixpoint insert_item (kv : string * string) (sorted : list (string * string))
  : list (string * string) :=
  match sorted with
  | [] => [kv]
  | kv' :: rest =>
      if String.leb (fst kv) (fst kv') then kv :: sorted
      else kv' :: insert_item kv rest
  end.

(** [sorted(items)], by key: the order of Python's [str] comparison is the
    order of the code points, which is the order of the UTF-8 octets. *)
Definition sort_items (items : list (string * string)) : list (string * string) :=
  fold_right insert_item [] items.

Fixpoint spaces (n : nat) : string :=
  match n with
  | O => ""
  | S n' => " " ++ spaces n'
  end.

(** ['\n' + indent * level] *)
Definition newline_indent (indent level : nat) : string := LF ++ spaces (indent * level).

Section Dumps.

Variables (indent : nat) (sort_keys : bool).

(** [_iterencode], the chunks joined. [level] is the current indentation
    level. The values of a dictionary are pure, so they are encoded before
    the items are put in key order, which leaves the text unchanged and
    keeps the recursion structural. *)
Fixpoint encode (level : nat) (o : value) : string :=
  match o with
  | JNone => "null"
  | JBool true => "true"
  | JBool false => "false"
  | JInt z => encode_int z
  | JStr s => encode_str s
  | JList xs =>
      match xs with
      | [] => "[]"
      | _ =>
          "[" ++ newline_indent indent (S level)
              ++ join ("," ++ newline_indent indent (S level))
                      (map (encode (S level)) xs)
              ++ newline_indent indent level ++ "]"
      end
  | JDict items =>
      match items with
      | [] => "{}"
      | _ =>
          let encoded :=
            map (fun kv => (fst kv, encode (S level) (snd kv))) items in
          let ordered := if sort_keys then sort_items encoded else encoded in
          "{" ++ newline_indent indent (S level)
              ++ join ("," ++ newline_indent indent (S level))
                      (map (fun kv => encode_str (fst kv) ++ ": " ++ snd kv) ordered)
              ++ newline_indent indent level ++ "}"
      end
  end.

(** [json.dumps(obj, indent=indent, sort_keys=sort_keys)] *)
Definition dumps (obj : value) : string := encode 0 obj.

End Dumps.

End Json.

(** The [for] loop over a list, threading the loop state. *)
Fixpoint foldM {A S : Type} (body : S -> A -> result S) (xs : list A) (s : S) : result S :=
  match xs with
  | [] => OK s
  | x :: xs' =>
      let* s' := body s x in
      foldM body xs' s'
  end.

(** ** What the module imports *)

(** [sch.Schema]: the column names with their types, in order. *)
Definition Schema : Type := list (string * string).

(** A [dict] of properties: its items in insertion order. *)
Definition Props : Type := list (string * string).

(** The attributes of the host's [CreateTable], the base class of the
    create-table statements. *)
Module CreateTable.

Record t : Type := mk {
  table_name : string;
  database : option string;
  external : bool;
  format : string;
  can_exist : bool;
  partition : option (list string);
  path : option string;
  tbl_properties : option Props
}.

(** The keyword arguments the subclasses pass on unchanged. *)
Record kwargs : Type := mk_kwargs {
  kw_database : option string;
  kw_can_exist : bool;
  kw_partition : option (list string);
  kw_tbl_properties : option Props
}.

Definition no_kwargs : kwargs := mk_kwargs None false None None.

End CreateTable.

(** The attributes of the host's [AlterTable]. *)
Module AlterTable.

Record t : Type := mk {
  table : string;
  location : option string;
  format : option string;
  tbl_properties : option Props;
  serde_properties : option Props
}.

End AlterTable.

(** The helpers of [ibis.backends.base.sql] and the methods inherited from its
    base classes, and the interpreter's table of printable characters.
    [type_to_sql_string] raises for a type without a dialect spelling, and so
    does [format_schema], which translates the type of every column;
    [format_partition] raises when it cannot walk the partition schema (a
    schema left at [None]). *)
Class Host : Type := {
  format_schema : Schema -> result string;
  format_tblproperties : Props -> string;
  format_partition : string -> option string -> result string;
  type_to_sql_string : string -> result string;
  _get_scoped_name : string -> option string -> string;
  _storage : CreateTable.t -> string;
  _location : CreateTable.t -> option string;
  _format_properties : AlterTable.t -> string -> string;
  _wrap_command : string -> string;
  isprintable : N -> bool
}.

(** Modelled from the spec: the function object of [.udf] ([SingleStoreUDF],
    [SingleStoreUDA]), which is not among the sources; these are the
    attributes [ddl.py] reads from it. The runtime and library-kind constants
    are attributes of the object, as the code reads them. The five hooks are
    those of an aggregate function. *)
Module SingleStoreUDF.

Record t : Type := mk {
  name : string;
  symbol : string;
  inputs : list string;
  output : string;
  language : string;
  type : string;
  library : pyval;
  LANGUAGE_WASM : string;
  LANGUAGE_PYTHON : string;
  TYPE_FILE : string;
  TYPE_MODULE : string;
  init_fn : option string;
  update_fn : option string;
  merge_fn : option string;
  serialize_fn : option string;
  finalize_fn : option string
}.

(** [getattr(func, attr)] for the hook attributes. *)
Definition getattr (func : t) (attr : string) : result (option string) :=
  if attr =? "init_fn" then OK (init_fn func)
  else if attr =? "update_fn" then OK (update_fn func)
  else if attr =? "merge_fn" then OK (merge_fn func)
  else if attr =? "serialize_fn" then OK (serialize_fn func)
  else if attr =? "finalize_fn" then OK (finalize_fn func)
  else Raise (AttributeError attr).

End SingleStoreUDF.

(** ** The module *)

Section Ddl.

Context `{Host}.

(** The body of the comprehension in [_singlestore_input_signature], for the
    pair [(i, x)] of [enumerate(inputs)]: the letter is looked up before the
    type is translated. *)
Definition render_parameter (ix : nat * string) : result string :=
  let* letter := index ascii_letters (fst ix) in
  let* ty := type_to_sql_string (snd ix) in
  OK (letter ++ " " ++ ty ++ " NOT NULL").

(** [_singlestore_input_signature(inputs)] *)
Definition _singlestore_input_signature (inputs : list string) : result string :=
  let* params := mapM render_parameter (enumerate inputs) in
  OK (join ", " params).

End Ddl.

(** *** Storage formats *)

Module DelimitedFormat.

Record t : Type := mk {
  path : string;
  delimiter : option string;
  escapechar : option string;
  na_rep : option string;
  lineterminator : option string
}.

Section WithHost.

Context `{Host}.

(** [to_ddl]: each [if ... is not None: yield ...] is a [match] on the option. *)
Definition to_ddl (self : t) : Gen.t string :=
  Gen.yield "ROW FORMAT DELIMITED" ;;
  match delimiter self with
  | Some d => Gen.yield ("FIELDS TERMINATED BY '" ++ d ++ "'")
  | None => Gen.done
  end ;;
  match escapechar self with
  | Some e => Gen.yield ("ESCAPED BY '" ++ e ++ "'")
  | None => Gen.done
  end ;;
  match lineterminator self with
  | Some l => Gen.yield ("LINES TERMINATED BY '" ++ l ++ "'")
  | None => Gen.done
  end ;;
  Gen.yield ("LOCATION '" ++ path self ++ "'") ;;
  match na_rep self with
  | Some n =>
      let props := [("serialization.null.format", n)] in
      Gen.yield (format_tblproperties props)
  | None => Gen.done
  end.

End WithHost.

End DelimitedFormat.

Module AvroFormat.

Record t : Type := mk {
  path : string;
  avro_schema : Json.value
}.

Section WithHost.

Context `{Host}.

Definition to_ddl (self : t) : Gen.t string :=
  Gen.yield "STORED AS AVRO" ;;
  Gen.yield ("LOCATION '" ++ path self ++ "'") ;;
  let schema := Json.dumps 2 true (avro_schema self) in
  let schema := join LF (map Lines.rstrip (Lines.splitlines schema)) in
  let props := [("avro.schema.literal", schema)] in
  Gen.yield (format_tblproperties props).

End WithHost.

End AvroFormat.

Module ParquetFormat.

Record t : Type := mk { path : string }.

Definition to_ddl (self : t) : Gen.t string :=
  Gen.yield "STORED AS PARQUET" ;;
  Gen.yield ("LOCATION '" ++ path self ++ "'").

End ParquetFormat.

(** *** Create-table statements *)

Module CreateTableParquet.

Record t : Type := mk {
  base : CreateTable.t;
  example_file : option string;
  example_table : option string;
  schema : option Schema
}.

(** [__init__]; [external] defaults to [True]. *)
Definition init (table_name path : string) (example_file example_table : option string)
    (schema : option Schema) (external : bool) (kw : CreateTable.kwargs) : t :=
  mk (CreateTable.mk table_name (CreateTable.kw_database kw) external "parquet"
        (CreateTable.kw_can_exist kw) (CreateTable.kw_partition kw) (Some path)
        (CreateTable.kw_tbl_properties kw))
     example_file example_table schema.

Section WithHost.

Context `{Host}.

(** [_pieces]. A yielded value is [None] when [_location()] returns [None];
    an exception of [format_schema] ends the generator before it yields. *)
Definition _pieces (self : t) : Gen.t (option string) :=
  match example_file self with
  | Some f => Gen.yield (Some ("LIKE PARQUET '" ++ f ++ "'"))
  | None =>
      match example_table self with
      | Some tbl => Gen.yield (Some ("LIKE " ++ tbl))
      | None =>
          match schema self with
          | Some sc =>
              match format_schema sc with
              | OK columns => Gen.yield (Some columns)
              | Raise e => Gen.raise e
              end
          | None => Gen.raise NotImplementedError
          end
      end
  end ;;
  Gen.yield (Some (_storage (base self))) ;;
  Gen.yield (_location (base self)).

(** Rendering exhausts the generator. *)
Definition render (self : t) : result (list (option string)) := Gen.collect (_pieces self).

End WithHost.

(** How many of the three sources are set. *)
Definition sources_set (self : t) : nat :=
  (match example_file self with Some _ => 1 | None => 0 end)
  + (match example_table self with Some _ => 1 | None => 0 end)
  + (match schema self with Some _ => 1 | None => 0 end).

End CreateTableParquet.

Module CreateTableAvro.

Record t : Type := mk {
  base : CreateTable.t;
  table_format : AvroFormat.t
}.

Definition init (table_name path : string) (avro_schema : Json.value) (external : bool)
    (kw : CreateTable.kwargs) : t :=
  mk (CreateTable.mk table_name (CreateTable.kw_database kw) external "parquet"
        (CreateTable.kw_can_exist kw) (CreateTable.kw_partition kw) None
        (CreateTable.kw_tbl_properties kw))
     (AvroFormat.mk path avro_schema).

Section WithHost.

Context `{Host}.

Definition _pieces (self : t) : Gen.t string :=
  match Gen.collect (AvroFormat.to_ddl (table_format self)) with
  | OK clauses => Gen.yield (join LF clauses)
  | Raise e => Gen.raise e
  end.

End WithHost.

End CreateTableAvro.

Module CreateTableDelimited.

(** The attributes of the host's [CreateTableWithSchema] after [__init__]. *)
Record t : Type := mk {
  base : CreateTable.t;
  schema : Schema;
  table_format : DelimitedFormat.t
}.

(** [__init__]: the four options are passed to [DelimitedFormat] by keyword;
    the host's constructor gets the name, the schema, the format and the
    remaining keyword arguments. *)
Definition init (table_name path : string) (schema : Schema)
    (delimiter escapechar lineterminator na_rep : option string) (external : bool)
    (kw : CreateTable.kwargs) : t :=
  let table_format :=
    DelimitedFormat.mk path delimiter escapechar na_rep lineterminator in
  mk (CreateTable.mk table_name (CreateTable.kw_database kw) external "parquet"
        (CreateTable.kw_can_exist kw) (CreateTable.kw_partition kw) None
        (CreateTable.kw_tbl_properties kw))
     schema table_format.

End CreateTableDelimited.

(** *** Load, partition and cache statements *)

Module LoadData.

Record t : Type := mk {
  table_name : string;
  path : string;
  database : option string;
  partition : option string;
  partition_schema : option string;
  overwrite : bool
}.

Section WithHost.

Context `{Host}.

(** [compile]: [format_partition] is called, and may raise, before the name
    is scoped. *)
Definition compile (self : t) : result string :=
  let overwrite := if overwrite self then "OVERWRITE " else "" in
  let* partition :=
    match partition self with
    | Some p =>
        let* clause := format_partition p (partition_schema self) in
        OK (LF ++ clause)
    | None => OK ""
    end in
  let scoped_name := _get_scoped_name (table_name self) (database self) in
  OK ("LOAD DATA INPATH '" ++ path self ++ "' " ++ overwrite ++ "INTO TABLE "
        ++ scoped_name ++ partition).

End WithHost.

End LoadData.

Module PartitionProperties.

Record t : Type := mk {
  base : AlterTable.t;
  partition : string;
  partition_schema : string
}.

Section WithHost.

Context `{Host}.

(** [_compile(cmd, property_prefix)] *)
Definition _compile (self : t) (cmd property_prefix : string) : result string :=
  let* part := format_partition (partition self) (Some (partition_schema self)) in
  let part := if cmd =? "" then part else cmd ++ " " ++ part in
  let props := _format_properties (base self) property_prefix in
  let action := AlterTable.table (base self) ++ " " ++ part ++ props in
  OK (_wrap_command action).

End WithHost.

End PartitionProperties.

Module AddPartition.

Definition init (table partition partition_schema : string) (location : option string)
  : PartitionProperties.t :=
  PartitionProperties.mk (AlterTable.mk table location None None None)
    partition partition_schema.

Definition compile `{Host} (self : PartitionProperties.t) : result string :=
  PartitionProperties._compile self "ADD" "".

End AddPartition.

Module AlterPartition.

Definition compile `{Host} (self : PartitionProperties.t) : result string :=
  PartitionProperties._compile self "" "SET ".

End AlterPartition.

Module DropPartition.

Definition init (table partition partition_schema : string) : PartitionProperties.t :=
  PartitionProperties.mk (AlterTable.mk table None None None None)
    partition partition_schema.

Definition compile `{Host} (self : PartitionProperties.t) : result string :=
  PartitionProperties._compile self "DROP" "".

End DropPartition.

Module CacheTable.

Record t : Type := mk {
  table_name : string;
  database : option string;
  pool : string
}.

Definition compile `{Host} (self : t) : string :=
  let scoped_name := _get_scoped_name (table_name self) (database self) in
  "ALTER TABLE " ++ scoped_name ++ " SET CACHED IN '" ++ pool self ++ "'".

End CacheTable.

(** *** Function statements *)

Module CreateFunction.

Record t : Type := mk {
  func : SingleStoreUDF.t;
  name : string;
  database : option string
}.

(** [__init__]: [name or func.name]. *)
Definition init (func : SingleStoreUDF.t) (name database : option string) : t :=
  let name :=
    match name with
    | Some n => if n =? "" then SingleStoreUDF.name func else n
    | None => SingleStoreUDF.name func
    end in
  mk func name database.

Section WithHost.

Context `{Host}.

Definition _singlestore_signature (self : t) : result string :=
  let scoped_name := _get_scoped_name (SingleStoreUDF.symbol (func self)) (database self) in
  let* input_sig := _singlestore_input_signature (SingleStoreUDF.inputs (func self)) in
  let* output_sig := type_to_sql_string (SingleStoreUDF.output (func self)) in
  OK (scoped_name ++ "(" ++ input_sig ++ ") RETURNS " ++ output_sig ++ " NOT NULL").

End WithHost.

End CreateFunction.

Module CreateUDF.

Import SingleStoreUDF.

Section WithHost.

Context `{Host}.

(** The runtime clause, or the [ValueError] of the first [if] chain. *)
Definition language_clause (func : SingleStoreUDF.t) : result string :=
  if language func =? LANGUAGE_WASM func then OK "AS WASM"
  else if language func =? LANGUAGE_PYTHON func then OK "AS PYTHON"
  else
    let* lib := a2u (library func) in
    Raise (ValueError ("Unsupported function language: " ++ lib ++ "'")).

(** The library clause appended to [param_line] by the second [if] chain. *)
Definition library_clause (func : SingleStoreUDF.t) (param_line : string) : result string :=
  if type func =? TYPE_FILE func then
    let* lib := a2u (library func) in
    OK (param_line ++ " INFILE '" ++ lib ++ "'")
  else if type func =? TYPE_MODULE func then
    let library := encode_utf8 (Repr.repr isprintable (or_empty (library func))) in
    let* literal := decode_utf8 (Base64.b64encode library) in
    OK (param_line ++ " '" ++ literal ++ "'")
  else Raise (ValueError "Unsupported function format").

Definition compile (self : CreateFunction.t) : result string :=
  let create_decl := "CREATE OR REPLACE FUNCTION" in
  let* singlestore_sig := CreateFunction._singlestore_signature self in
  let* param_line := language_clause (CreateFunction.func self) in
  let* param_line := library_clause (CreateFunction.func self) param_line in
  OK (join " " [create_decl; singlestore_sig; param_line]).

End WithHost.

End CreateUDF.

Module CreateUDA.

Import SingleStoreUDF.

Definition fn_names : list string :=
  ["init_fn"; "update_fn"; "merge_fn"; "serialize_fn"; "finalize_fn"].

(** The body of the loop over [fn_names]: [tokens] is the list under
    construction. *)
Definition add_hook (func : SingleStoreUDF.t) (tokens : list string) (fn : string)
  : result (list string) :=
  let* value := getattr func fn in
  match value with
  | Some v => OK (List.app tokens [fn ++ "=" ++ DQ ++ v ++ DQ])
  | None => OK tokens
  end.

Section WithHost.

Context `{Host}.

Definition compile (self : CreateFunction.t) : result string :=
  let create_decl := "CREATE OR REPLACE AGGREGATE FUNCTION" in
  let* singlestore_sig := CreateFunction._singlestore_signature self in
  let* lib := a2u (library (CreateFunction.func self)) in
  let tokens := ["AS INFILE '" ++ lib ++ "'"] in
  let* tokens := foldM (add_hook (CreateFunction.func self)) fn_names tokens in
  OK (join " " [create_decl; singlestore_sig] ++ " " ++ join LF tokens).

End WithHost.

End CreateUDA.

Module DropFunction.

(** The attributes of the host's [DropFunction]. *)
Record t : Type := mk {
  name : string;
  inputs : list string;
  must_exist : bool;
  aggregate : bool;
  database : option string
}.

Definition _singlestore_signature `{Host} (self : t) : result string :=
  let full_name := _get_scoped_name (name self) (database self) in
  let* input_sig := _singlestore_input_signature (inputs self) in
  OK (full_name ++ "(" ++ input_sig ++ ")").

End DropFunction.

Module ListFunction.

Record t : Type := mk {
  database : string;
  like : option string;
  aggregate : bool
}.

(** [if self.like:] is the truth value of the pattern: [None] and [''] are
    both false. *)
Definition like_truthy (like : option string) : bool :=
  match like with
  | Some p => negb (p =? "")
  | None => false
  end.

(** [compile]: [statement] is rebound by each [+=]. *)
Definition compile (self : t) : string :=
  let statement := "SHOW " in
  let statement := if aggregate self then statement ++ "AGGREGATE " else statement in
  let statement := statement ++ "FUNCTIONS IN " ++ database self in
  let statement :=
    if like_truthy (like self)
    then statement ++ " LIKE '" ++ match like self with Some p => p | None => "None" end ++ "'"
    else statement in
  statement.

End ListFunction.

(** ** An instance of the host, for running the statements

    The helpers below follow the host framework's formatting closely enough
    to run the statements on concrete descriptors (names are taken
    unqualified and unquoted); the theorems hold for every [Host]. *)

Module SampleHost.

Definition sql_type_names : list (string * string) :=
  [("int8", "tinyint"); ("int16", "smallint"); ("int32", "int"); ("int64", "bigint");
   ("float32", "float"); ("float64", "double"); ("string", "string");
   ("boolean", "boolean"); ("timestamp", "timestamp")].

Fixpoint lookup (k : string) (table : list (string * string)) : option string :=
  match table with
  | [] => None
  | (k', v) :: rest => if k =? k' then Some v else lookup k rest
  end.

Definition sql_string (t : string) : result string :=
  match lookup t sql_type_names with
  | Some s => OK s
  | None => Raise (UnsupportedBackendType t)
  end.

(** The columns of a schema; a type without a dialect spelling raises. *)
Definition schema_text (schema : Schema) : result string :=
  let* columns :=
    mapM (fun c =>
            let* ty := sql_string (snd c) in
            OK ("`" ++ fst c ++ "` " ++ ty))
         schema in
  OK ("(" ++ join ("," ++ LF ++ " ") columns ++ ")").

(** The properties, sorted by key as the host sorts them. *)
Definition tblproperties (props : Props) : string :=
  "TBLPROPERTIES (" ++ LF
    ++ join ("," ++ LF)
         (map (fun kv => "  '" ++ fst kv ++ "'='" ++ snd kv ++ "'") (Json.sort_items props))
    ++ LF ++ ")".

(** The partition clause; a partition schema left at [None] cannot be
    iterated. *)
Definition partition_text (partition : string) (partition_schema : option string)
  : result string :=
  match partition_schema with
  | Some _ => OK ("PARTITION (" ++ partition ++ ")")
  | None => Raise (TypeError "'NoneType' object is not iterable")
  end.

Definition get_scoped_name (obj_name : string) (database : option string) : string :=
  match database with
  | Some db => if db =? "" then "`" ++ obj_name ++ "`" else db ++ ".`" ++ obj_name ++ "`"
  | None => "`" ++ obj_name ++ "`"
  end.

(** [s.upper()], on the letters [a] to [z]. *)
Fixpoint upper (s : string) : string :=
  match s with
  | EmptyString => EmptyString
  | String c rest =>
      let n := nat_of_ascii c in
      String (if (97 <=? n)%nat && (n <=? 122)%nat then ascii_of_nat (n - 32) else c)
             (upper rest)
  end.

(** The host keeps the storage format in upper case. *)
Definition storage (self : CreateTable.t) : string :=
  "STORED AS " ++ upper (CreateTable.format self).

Definition location (self : CreateTable.t) : option string :=
  match CreateTable.path self with
  | Some p => if p =? "" then None else Some ("LOCATION '" ++ p ++ "'")
  | None => None
  end.

Definition format_properties (self : AlterTable.t) (prefix : string) : string :=
  let tokens :=
    List.app
      (match AlterTable.location self with Some l => ["LOCATION '" ++ l ++ "'"] | None => [] end)
      (List.app
         (match AlterTable.format self with Some f => ["FILEFORMAT " ++ f] | None => [] end)
         (match AlterTable.tbl_properties self with
          | Some p => [tblproperties p]
          | None => []
          end)) in
  match tokens with
  | [] => ""
  | _ => LF ++ prefix ++ join LF tokens
  end.

Definition wrap_command (cmd : string) : string := "ALTER TABLE " ++ cmd.

(** [str.isprintable] on U+0080 to U+00FF: all but the C1 controls, the
    no-break space and the soft hyphen. The instance has no table for the
    characters above U+00FF and has them escaped; the descriptors that are
    run hold ASCII text only. *)
Definition printable (c : N) : bool :=
  negb (N.leb c 0xA0) && negb (N.eqb c 0xAD) && N.leb c 0xFF.

Definition host : Host := {|
  format_schema := schema_text;
  format_tblproperties := tblproperties;
  format_partition := partition_text;
  type_to_sql_string := sql_string;
  _get_scoped_name := get_scoped_name;
  _storage := storage;
  _location := location;
  _format_properties := format_properties;
  _wrap_command := wrap_command;
  isprintable := printable
|}.

(** A scalar function in WebAssembly, loaded from a file. *)
Definition udf : SingleStoreUDF.t :=
  SingleStoreUDF.mk "plus_one" "plus_one" ["int32"; "string"] "int64"
    "wasm" "file" (PyStr "/lib/plus_one.wasm")
    "wasm" "python" "file" "module"
    None None None None None.

End SampleHost.

(** * The shapes of the rendered text

    The clauses and sequences the properties below are stated with, written
    from the specification's words. *)

(** The clause of an optional setting, following the specification's words:
    [<keyword> '<value>'] when the setting is there, nothing otherwise. *)
Definition optional_clause (keyword : string) (setting : option string) : list string :=
  match setting with
  | Some v => [keyword ++ " '" ++ v ++ "'"]
  | None => []
  end.

(** The parameter names, following the specification's words: the lowercase
    letters [a] to [z], then the uppercase letters [A] to [Z]. *)
Definition letter_sequence : list string :=
  map (fun code => String (ascii_of_nat code) "") (List.app (seq 97 26) (seq 65 26)).

(** One rendered parameter. *)
Definition parameter (letter ty : string) : string := letter ++ " " ++ ty ++ " NOT NULL".


(** The clause of one lifecycle hook, following the specification's words:
    [hookname="expression"] when the hook has a value, nothing otherwise. *)
Definition hook_clause (hook : string) (value : option string) : list string :=
  match value with
  | Some expression => [hook ++ "=" ++ DQ ++ expression ++ DQ]
  | None => []
  end.

(** The hook clauses in the fixed order init, update, merge, serialize,
    finalize. *)
Definition hook_clauses (func : SingleStoreUDF.t) : list string :=
  List.app (hook_clause "init_fn" (SingleStoreUDF.init_fn func))
  (List.app (hook_clause "update_fn" (SingleStoreUDF.update_fn func))
  (List.app (hook_clause "merge_fn" (SingleStoreUDF.merge_fn func))
  (List.app (hook_clause "serialize_fn" (SingleStoreUDF.serialize_fn func))
            (hook_clause "finalize_fn" (SingleStoreUDF.finalize_fn func))))).

(** The items of a dictionary come out in the order of their keys. *)
Definition key_le (a b : string * string) : Prop := String.leb (fst a) (fst b) = true.

(** The text of one item of a dictionary at an indentation level. *)
Definition item_text (kv : string * string) : string :=
  Json.encode_str (fst kv) ++ ": " ++ snd kv.

(** The schema literal, following the specification's words: the JSON text of
    the schema with indentation 2 and sorted keys, every line stripped of its
    trailing whitespace. *)
Definition schema_literal (avro_schema : Json.value) : string :=
  join LF (map Lines.rstrip (Lines.splitlines (Json.dumps 2 true avro_schema))).

Section HostShapes.

Context `{Host}.

(** The trailing properties clause of a delimited file. *)
Definition null_format_clause (na_rep : option string) : list string :=
  match na_rep with
  | Some n => [format_tblproperties [("serialization.null.format", n)]]
  | None => []
  end.

(** The source clause by the order of the [if]/[elif] chain: the example file
    when there is one, else the example table, else the columns of the schema,
    which the host may fail to format; [None] when nothing is set. *)
Definition first_source (self : CreateTableParquet.t) : option (result string) :=
  match CreateTableParquet.example_file self with
  | Some f => Some (OK ("LIKE PARQUET '" ++ f ++ "'"))
  | None =>
      match CreateTableParquet.example_table self with
      | Some tbl => Some (OK ("LIKE " ++ tbl))
      | None => option_map format_schema (CreateTableParquet.schema self)
      end
  end.

(** Every type of the list has a dialect spelling, the one given. *)
Definition spelled (inputs spellings : list string) : Prop :=
  Forall2 (fun x ty => type_to_sql_string x = OK ty) inputs spellings.

End HostShapes.

(** ** JSON text, from the specification's words

    The text of a value as pretty-printed JSON with an indentation of two
    spaces per level and the keys of every object in order. *)

(** [n] spaces. *)
Definition pad (n : nat) : string := string_of_list_ascii (repeat " "%char n).














(** ** Shapes of the further properties *)

(** A character of base64 text: one of the 64 digits, or the padding. *)
Definition base64_char (c : ascii) : Prop :=
  In c (list_ascii_of_string Base64.alphabet) \/ c = Base64.pad.

(** A [str] in the sense of the embedding: UTF-8 text. *)
Definition is_text (s : string) : Prop := Text.utf8_decode (Text.octets s) <> None.

(** The number of options of a delimited format that are set. *)
Definition options_set (self : DelimitedFormat.t) : nat :=
  (match DelimitedFormat.delimiter self with Some _ => 1 | None => 0 end)
  + (match DelimitedFormat.escapechar self with Some _ => 1 | None => 0 end)
  + (match DelimitedFormat.lineterminator self with Some _ => 1 | None => 0 end)
  + (match DelimitedFormat.na_rep self with Some _ => 1 | None => 0 end).

(** A [LoadData] without its partition. *)
Definition without_partition (self : LoadData.t) : LoadData.t :=
  LoadData.mk (LoadData.table_name self) (LoadData.path self) (LoadData.database self)
    None (LoadData.partition_schema self) (LoadData.overwrite self).

(** A [DropFunction] for the function a [CreateFunction] creates: the
    function's symbol and input types, in the same database. *)
Definition drop_of (self : CreateFunction.t) (must_exist aggregate : bool) : DropFunction.t :=
  DropFunction.mk (SingleStoreUDF.symbol (CreateFunction.func self))
    (SingleStoreUDF.inputs (CreateFunction.func self)) must_exist aggregate
    (CreateFunction.database self).

(** Every type of the list has a dialect spelling. *)
Definition all_spelled `{Host} (inputs : list string) : Prop :=
  Forall (fun x => succeeds (type_to_sql_string x)) inputs.

(** The function with another library. *)
Definition with_library (func : SingleStoreUDF.t) (library : pyval) : SingleStoreUDF.t :=
  SingleStoreUDF.mk (SingleStoreUDF.name func) (SingleStoreUDF.symbol func)
    (SingleStoreUDF.inputs func) (SingleStoreUDF.output func)
    (SingleStoreUDF.language func) (SingleStoreUDF.type func) library
    (SingleStoreUDF.LANGUAGE_WASM func) (SingleStoreUDF.LANGUAGE_PYTHON func)
    (SingleStoreUDF.TYPE_FILE func) (SingleStoreUDF.TYPE_MODULE func)
    (SingleStoreUDF.init_fn func) (SingleStoreUDF.update_fn func)
    (SingleStoreUDF.merge_fn func) (SingleStoreUDF.serialize_fn func)
    (SingleStoreUDF.finalize_fn func).

(** A printable ASCII character, the space included. *)
Definition printable (c : N) : bool := Text.between 0x20 c 0x7E.

(** A space is followed by a character other than a line feed, and a line
    feed by some character; [next] is the character after, if any. *)
Definition well_followed (c : N) (next : option N) : bool :=
  if N.eqb c 32 then match next with Some d => negb (N.eqb d 10) | None => false end
  else if N.eqb c 10 then match next with Some _ => true | None => false end
  else true.

(** A text of printable characters and line feeds in which no line ends in a
    space and no line feed ends the text, given the character that comes
    after the text. *)
Fixpoint flows (cs : list N) (next : option N) : bool :=
  match cs with
  | [] => true
  | c :: rest =>
      (N.eqb c 10 || printable c)
      && well_followed c (match rest with d :: _ => Some d | [] => next end)
      && flows rest next
  end.

(** A text that flows whatever follows it, and does not start with a line
    feed. *)
Definition solid (s : string) : Prop :=
  (exists c rest, Text.octets s = c :: rest /\ N.eqb c 10 = false)
  /\ forall next, flows (Text.octets s) next = true.

(** A printable character other than the space. *)
Definition dense (c : N) : bool := printable c && negb (N.eqb c 32).

(** * Descriptors to run the statements on *)

(** A statement with both an example file and an example table. *)
Definition parquet_two_sources : CreateTableParquet.t :=
  CreateTableParquet.init "t" "/data/t.parq"
    (Some "/data/example.parq") (Some "other_table") None true CreateTable.no_kwargs.

(** An aggregate function with only the update and finalize hooks. *)
Definition uda_two_hooks : CreateFunction.t :=
  CreateFunction.init
    (SingleStoreUDF.mk "total" "total" ["int64"] "int64" "wasm" "file"
       (PyStr "/lib/total.wasm") "wasm" "python" "file" "module"
       None (Some "total_update") None None (Some "total_finalize"))
    None (Some "db").

(** A scalar function in Python, an embedded module without content. *)
Definition udf_module_none : CreateFunction.t :=
  CreateFunction.init
    (SingleStoreUDF.mk "f" "f" ["int32"] "string" "python" "module" PyNone
       "wasm" "python" "file" "module" None None None None None)
    None None.



(** A scalar function whose runtime is neither of the two supported ones. *)
Definition udf_native : CreateFunction.t :=
  CreateFunction.init
    (SingleStoreUDF.mk "f" "f" ["int32"] "string" "native" "file" (PyStr "/lib/f.so")
       "wasm" "python" "file" "module" None None None None None)
    None None.

(** A record schema whose keys are given out of order. *)
Definition avro_example : Json.value :=
  Json.JDict
    [("type", Json.JStr "record");
     ("name", Json.JStr "row");
     ("fields", Json.JList
                  [Json.JDict [("type", Json.JStr "long"); ("name", Json.JStr "id")]])].

(** * Properties *)

(** ** The error monad and generators *)

Lemma bind_OK {A B : Type} (r : result A) (k : A -> result B) (b : B) :
  bind r k = OK b -> exists a, r = OK a /\ k a = OK b.
Proof.
  destruct r as [a | e]; simpl; intros Hk.
  - exists a. split; [reflexivity | exact Hk].
  - discriminate Hk.
Qed.

Lemma succeeds_not_fails {A : Type} (r : result A) : succeeds r -> ~ fails r.
Proof.
  intros [a Ha] [e He]. rewrite Ha in He. discriminate He.
Qed.


Lemma collect_yield_seq {Y : Type} (y : Y) (g : Gen.t Y) :
  Gen.collect (Gen.yield y ;; g) =
  let* ys := Gen.collect g in OK (y :: ys).
Proof.
  unfold Gen.collect, Gen.seq. simpl.
  destruct (Gen.ended g); reflexivity.
Qed.

Lemma collect_done_seq {Y : Type} (g : Gen.t Y) :
  Gen.collect (Gen.done ;; g) = Gen.collect g.
Proof.
  unfold Gen.collect, Gen.seq. simpl.
  destruct (Gen.ended g); reflexivity.
Qed.

Lemma collect_raise_seq {Y : Type} (e : exn) (g : Gen.t Y) :
  Gen.collect (Gen.raise e ;; g) = Raise e.
Proof. reflexivity. Qed.

Lemma collect_yield {Y : Type} (y : Y) : Gen.collect (Gen.yield y) = OK [y].
Proof. reflexivity. Qed.

(** ** ListFunction *)

(** C9. A [ListFunction] whose pattern is the empty string compiles to the
    same text as one whose pattern is unset, and that text is the statement
    without any [LIKE] clause: [SHOW [AGGREGATE ]FUNCTIONS IN <database>]. *)
Theorem list_function_empty_like_omitted (database : string) (aggregate : bool) :
  ListFunction.compile (ListFunction.mk database (Some "") aggregate)
  = ListFunction.compile (ListFunction.mk database None aggregate)
  /\ ListFunction.compile (ListFunction.mk database (Some "") aggregate)
     = "SHOW " ++ (if aggregate then "AGGREGATE " else "") ++ "FUNCTIONS IN " ++ database.
Proof.
  unfold ListFunction.compile; simpl.
  destruct aggregate; split; reflexivity.
Qed.

(** The [LIKE] clause is there exactly for a non-empty pattern. *)
Lemma list_function_like (database pattern : string) (aggregate : bool) :
  pattern <> "" ->
  ListFunction.compile (ListFunction.mk database (Some pattern) aggregate)
  = ListFunction.compile (ListFunction.mk database None aggregate)
      ++ " LIKE '" ++ pattern ++ "'".
Proof.
  intros Hp. unfold ListFunction.compile; simpl.
  apply String.eqb_neq in Hp. rewrite Hp. simpl.
  destruct aggregate; simpl; reflexivity.
Qed.

Example list_function_golden :
  ListFunction.compile (ListFunction.mk "db" (Some "sum_%") true)
  = "SHOW AGGREGATE FUNCTIONS IN db LIKE 'sum_%'".
Proof. reflexivity. Qed.

(** ** Storage formats *)

Section Formats.

Context `{Host}.

(** C3. [DelimitedFormat.to_ddl] yields, in this order: [ROW FORMAT
    DELIMITED]; the [FIELDS TERMINATED BY], [ESCAPED BY] and [LINES TERMINATED
    BY] clauses, each only when its setting is there; [LOCATION '<path>'];
    and the properties clause for ['serialization.null.format'] only when
    [na_rep] is set. It never raises. *)
Theorem delimited_to_ddl_clauses (self : DelimitedFormat.t) :
  Gen.collect (DelimitedFormat.to_ddl self)
  = OK (List.app ["ROW FORMAT DELIMITED"]
       (List.app (optional_clause "FIELDS TERMINATED BY" (DelimitedFormat.delimiter self))
       (List.app (optional_clause "ESCAPED BY" (DelimitedFormat.escapechar self))
       (List.app (optional_clause "LINES TERMINATED BY" (DelimitedFormat.lineterminator self))
       (List.app ["LOCATION '" ++ DelimitedFormat.path self ++ "'"]
                 (null_format_clause (DelimitedFormat.na_rep self))))))).
Proof.
  destruct self as [path delimiter escapechar na_rep lineterminator].
  unfold DelimitedFormat.to_ddl; simpl.
  destruct delimiter, escapechar, lineterminator, na_rep; reflexivity.
Qed.

(** The first clause is always there, and so is the location. *)
Lemma delimited_to_ddl_bounds (self : DelimitedFormat.t) :
  exists clauses,
    Gen.collect (DelimitedFormat.to_ddl self) = OK ("ROW FORMAT DELIMITED" :: clauses)
    /\ In ("LOCATION '" ++ DelimitedFormat.path self ++ "'") clauses
    /\ List.length clauses <= 5.
Proof.
  destruct self as [path delimiter escapechar na_rep lineterminator].
  unfold DelimitedFormat.to_ddl; simpl.
  destruct delimiter, escapechar, lineterminator, na_rep;
    (eexists; split; [reflexivity | simpl; split; [auto 10 | lia]]).
Qed.

End Formats.

Example delimited_golden :
  Gen.collect
    (@DelimitedFormat.to_ddl SampleHost.host
       (DelimitedFormat.mk "/data/t.csv" (Some ",") None (Some "NULL") None))
  = OK ["ROW FORMAT DELIMITED"; "FIELDS TERMINATED BY ','"; "LOCATION '/data/t.csv'";
        "TBLPROPERTIES (" ++ LF ++ "  'serialization.null.format'='NULL'" ++ LF ++ ")"].
Proof. reflexivity. Qed.

(** ** Create table from Parquet *)

Section Parquet.

Context `{Host}.

Lemma first_source_none (self : CreateTableParquet.t) :
  first_source self = None <-> CreateTableParquet.sources_set self = 0.
Proof.
  unfold first_source, CreateTableParquet.sources_set.
  destruct (CreateTableParquet.example_file self),
    (CreateTableParquet.example_table self),
    (CreateTableParquet.schema self); simpl; split; intros E; try discriminate E; reflexivity.
Qed.

Lemma parquet_render (self : CreateTableParquet.t) :
  CreateTableParquet.render self =
  match first_source self with
  | Some (OK clause) =>
      OK [Some clause; Some (_storage (CreateTableParquet.base self));
          _location (CreateTableParquet.base self)]
  | Some (Raise e) => Raise e
  | None => Raise NotImplementedError
  end.
Proof.
  unfold CreateTableParquet.render, CreateTableParquet._pieces, first_source.
  destruct (CreateTableParquet.example_file self);
    [reflexivity |].
  destruct (CreateTableParquet.example_table self);
    [reflexivity |].
  destruct (CreateTableParquet.schema self) as [sc |]; [| reflexivity].
  simpl. destruct (format_schema sc); reflexivity.
Qed.

(** C1, as the code has it. Rendering a [CreateTableParquet] raises the
    ambiguity error (the code's [NotImplementedError]) when none of the
    example file, the example table and the schema is set. With more than one
    set it does not: the source is taken by precedence. An example file,
    whatever else is set, renders [LIKE PARQUET '<file>']; without it an
    example table renders [LIKE <table>]; without both, the schema renders
    its columns when the host formats them and raises the host's exception
    when it does not. Nothing else makes the rendering raise. *)
Theorem parquet_pieces_first_source_wins (self : CreateTableParquet.t) :
  (CreateTableParquet.sources_set self = 0 ->
   CreateTableParquet.render self = Raise NotImplementedError)
  /\ (forall f, CreateTableParquet.example_file self = Some f ->
      CreateTableParquet.render self
      = OK [Some ("LIKE PARQUET '" ++ f ++ "'");
            Some (_storage (CreateTableParquet.base self));
            _location (CreateTableParquet.base self)])
  /\ (forall tbl, CreateTableParquet.example_file self = None ->
      CreateTableParquet.example_table self = Some tbl ->
      CreateTableParquet.render self
      = OK [Some ("LIKE " ++ tbl);
            Some (_storage (CreateTableParquet.base self));
            _location (CreateTableParquet.base self)])
  /\ (forall sc, CreateTableParquet.example_file self = None ->
      CreateTableParquet.example_table self = None ->
      CreateTableParquet.schema self = Some sc ->
      CreateTableParquet.render self
      = let* columns := format_schema sc in
        OK [Some columns;
            Some (_storage (CreateTableParquet.base self));
            _location (CreateTableParquet.base self)])
  /\ (forall e, CreateTableParquet.render self = Raise e ->
      (CreateTableParquet.sources_set self = 0 /\ e = NotImplementedError)
      \/ (exists sc,
             CreateTableParquet.example_file self = None
             /\ CreateTableParquet.example_table self = None
             /\ CreateTableParquet.schema self = Some sc
             /\ format_schema sc = Raise e)).
Proof.
  rewrite parquet_render.
  split; [| split; [| split; [| split]]].
  - intros Hnone. apply first_source_none in Hnone. rewrite Hnone. reflexivity.
  - intros f Hf. unfold first_source. rewrite Hf. reflexivity.
  - intros tbl Hf Ht. unfold first_source. rewrite Hf, Ht. reflexivity.
  - intros sc Hf Ht Hs. unfold first_source. rewrite Hf, Ht, Hs. simpl.
    destruct (format_schema sc); reflexivity.
  - intros e. unfold first_source, CreateTableParquet.sources_set.
    destruct (CreateTableParquet.example_file self); [intros E; discriminate E |].
    destruct (CreateTableParquet.example_table self); [intros E; discriminate E |].
    destruct (CreateTableParquet.schema self) as [sc |]; simpl.
    + destruct (format_schema sc) as [columns | e'] eqn:Hsc; intros E;
        [discriminate E |].
      injection E as <-. right. exists sc. repeat split; assumption.
    + intros E. injection E as <-. left. split; reflexivity.
Qed.

End Parquet.

(** With two sources set the statement renders, the example file taking
    precedence over the example table. *)
Lemma parquet_two_sources_render :
  CreateTableParquet.sources_set parquet_two_sources = 2
  /\ @CreateTableParquet.render SampleHost.host parquet_two_sources
     = OK [Some "LIKE PARQUET '/data/example.parq'"; Some "STORED AS PARQUET";
           Some "LOCATION '/data/t.parq'"].
Proof. split; reflexivity. Qed.

Example parquet_no_source_raises :
  @CreateTableParquet.render SampleHost.host
    (CreateTableParquet.init "t" "/data/t.parq" None None None true CreateTable.no_kwargs)
  = Raise NotImplementedError.
Proof. reflexivity. Qed.

(** With the schema as the only source, a column type without a dialect
    spelling makes the rendering raise what the host's formatter raises. *)
Example parquet_schema_untranslatable :
  @CreateTableParquet.render SampleHost.host
    (CreateTableParquet.init "t" "/data/t.parq" None None
       (Some [("id", "int64"); ("shape", "geometry")]) true CreateTable.no_kwargs)
  = Raise (UnsupportedBackendType "geometry").
Proof. reflexivity. Qed.

(** ** The function-signature renderer *)




Lemma letter_sequence_length : List.length letter_sequence = 52.
Proof. reflexivity. Qed.

(** [string.ascii_letters] holds the sequence, one letter per position. *)
Lemma ascii_letters_sequence :
  map (fun c => String c "") (list_ascii_of_string ascii_letters) = letter_sequence.
Proof. reflexivity. Qed.

Lemma index_ascii_letters (k : nat) :
  k < 52 -> index ascii_letters k = OK (nth k letter_sequence "").
Proof.
  intros Hk.
  do 52 (destruct k as [| k]; [reflexivity |]).
  lia.
Qed.

Lemma get_beyond (s : string) (k : nat) : String.length s <= k -> String.get k s = None.
Proof.
  revert k. induction s as [| c s IH]; intros k Hk; simpl.
  - reflexivity.
  - destruct k as [| k]; simpl in Hk; [lia |].
    apply IH. lia.
Qed.

Lemma index_ascii_letters_beyond (k : nat) :
  52 <= k -> index ascii_letters k = Raise IndexError.
Proof.
  intros Hk. unfold index. rewrite get_beyond; [reflexivity | exact Hk].
Qed.

Lemma skipn_nth {A : Type} (d : A) (l : list A) (k : nat) :
  k < List.length l -> skipn k l = nth k l d :: skipn (S k) l.
Proof.
  revert k. induction l as [| x l IH]; intros k Hk; simpl in Hk.
  - lia.
  - destruct k as [| k]; [reflexivity |].
    simpl. apply IH. lia.
Qed.

Section Signature.

Context `{Host}.

Lemma input_signature_unfold (inputs : list string) :
  _singlestore_input_signature inputs =
  let* params := mapM render_parameter (enumerate inputs) in OK (join ", " params).
Proof. reflexivity. Qed.

Lemma render_parameters_from (inputs spellings : list string) (k : nat) :
  spelled inputs spellings ->
  k + List.length inputs <= 52 ->
  mapM render_parameter (combine (seq k (List.length inputs)) inputs)
  = OK (map (fun p => parameter (fst p) (snd p))
            (combine (skipn k letter_sequence) spellings)).
Proof.
  intros Hsp. revert k.
  induction Hsp as [| x ty inputs spellings Hx Hsp IH]; intros k Hk.
  - simpl. destruct (skipn k letter_sequence); reflexivity.
  - simpl in Hk. simpl.
    unfold render_parameter at 1. simpl.
    rewrite index_ascii_letters by lia. simpl.
    rewrite Hx. simpl.
    rewrite IH by lia. simpl.
    rewrite (skipn_nth "" letter_sequence k) by (rewrite letter_sequence_length; lia).
    reflexivity.
Qed.

Lemma render_parameters_overflow (inputs : list string) (k : nat) :
  52 < k + List.length inputs -> k <= 52 ->
  (forall params,
      mapM render_parameter (combine (seq k (List.length inputs)) inputs) <> OK params)
  /\ ((forall x, In x (firstn (52 - k) inputs) -> succeeds (type_to_sql_string x)) ->
      mapM render_parameter (combine (seq k (List.length inputs)) inputs) = Raise IndexError).
Proof.
  revert k. induction inputs as [| x inputs IH]; intros k Hlen Hk; simpl in Hlen.
  - lia.
  - remember (52 - k) as room eqn:Hroom.
    simpl. unfold render_parameter at 1 3. simpl.
    destruct (Nat.eq_dec k 52) as [-> | Hne].
    + rewrite index_ascii_letters_beyond by lia. simpl.
      split; [intros params E; discriminate E | reflexivity].
    + rewrite index_ascii_letters by lia. simpl.
      destruct (IH (S k)) as [IHa IHb]; [lia | lia |].
      destruct room as [| room]; [lia |].
      replace (52 - S k) with room in IHb by lia.
      destruct (type_to_sql_string x) as [ty | e] eqn:Hx; simpl.
      * split.
        -- intros params E.
           destruct (mapM render_parameter (combine (seq (S k) (List.length inputs)) inputs))
             as [ps | e] eqn:Hrest; simpl in E; [| discriminate E].
           apply (IHa ps). reflexivity.
        -- intros Hall. rewrite IHb; [reflexivity |].
           intros y Hy. apply Hall. right. exact Hy.
      * split; [intros params E; discriminate E |].
        intros Hall.
        assert (Hs : succeeds (type_to_sql_string x)) by (apply Hall; left; reflexivity).
        destruct Hs as [ty Hty]. rewrite Hx in Hty. discriminate Hty.
Qed.

End Signature.


Section SignatureProperties.

Context `{Host}.


(** [DropFunction] and [CreateFunction] wrap the rendered parameters. *)
Lemma drop_function_signature (self : DropFunction.t) (input_sig : string) :
  _singlestore_input_signature (DropFunction.inputs self) = OK input_sig ->
  DropFunction._singlestore_signature self
  = OK (_get_scoped_name (DropFunction.name self) (DropFunction.database self)
          ++ "(" ++ input_sig ++ ")").
Proof.
  intros Hsig. unfold DropFunction._singlestore_signature. rewrite Hsig. reflexivity.
Qed.

Lemma create_function_signature (self : CreateFunction.t) (input_sig output_sig : string) :
  _singlestore_input_signature (SingleStoreUDF.inputs (CreateFunction.func self))
  = OK input_sig ->
  type_to_sql_string (SingleStoreUDF.output (CreateFunction.func self)) = OK output_sig ->
  CreateFunction._singlestore_signature self
  = OK (_get_scoped_name (SingleStoreUDF.symbol (CreateFunction.func self))
                         (CreateFunction.database self)
          ++ "(" ++ input_sig ++ ") RETURNS " ++ output_sig ++ " NOT NULL").
Proof.
  intros Hin Hout. unfold CreateFunction._singlestore_signature.
  rewrite Hin. simpl. rewrite Hout. reflexivity.
Qed.


End SignatureProperties.


Example input_signature_golden :
  @DropFunction._singlestore_signature SampleHost.host
    (DropFunction.mk "f" ["int32"; "string"] true false (Some "db"))
  = OK "db.`f`(a int NOT NULL, b string NOT NULL)".
Proof. reflexivity. Qed.


Example input_signature_53 :
  @_singlestore_input_signature SampleHost.host (repeat "int32" 53) = Raise IndexError.
Proof. reflexivity. Qed.


Example input_signature_52 :
  succeeds (@_singlestore_input_signature SampleHost.host (repeat "int32" 52)).
Proof. eexists. reflexivity. Qed.

(** ** Aggregate functions *)

(** The loop over [fn_names] never meets a missing attribute and appends the
    hook clauses to the tokens it starts from. *)
Lemma uda_loop (func : SingleStoreUDF.t) (tokens : list string) :
  foldM (CreateUDA.add_hook func) CreateUDA.fn_names tokens
  = OK (List.app tokens (hook_clauses func)).
Proof.
  unfold hook_clauses, CreateUDA.fn_names, CreateUDA.add_hook. simpl.
  destruct (SingleStoreUDF.init_fn func), (SingleStoreUDF.update_fn func),
    (SingleStoreUDF.merge_fn func), (SingleStoreUDF.serialize_fn func),
    (SingleStoreUDF.finalize_fn func); simpl;
    repeat rewrite <- app_assoc; simpl; rewrite ?app_nil_r; reflexivity.
Qed.

Lemma hook_clauses_count (func : SingleStoreUDF.t) :
  List.length (hook_clauses func)
  = List.length (filter (fun v => match v with Some _ => true | None => false end)
                   [SingleStoreUDF.init_fn func; SingleStoreUDF.update_fn func;
                    SingleStoreUDF.merge_fn func; SingleStoreUDF.serialize_fn func;
                    SingleStoreUDF.finalize_fn func]).
Proof.
  unfold hook_clauses.
  destruct (SingleStoreUDF.init_fn func), (SingleStoreUDF.update_fn func),
    (SingleStoreUDF.merge_fn func), (SingleStoreUDF.serialize_fn func),
    (SingleStoreUDF.finalize_fn func); reflexivity.
Qed.

Section Aggregate.

Context `{Host}.


(** X15. [CreateUDA.compile] returns a statement exactly when the signature
    renders and the library reads as text: the loop over the hooks never
    fails, whatever the hooks hold. *)
Lemma uda_compile_succeeds (self : CreateFunction.t) :
  succeeds (CreateUDA.compile self)
  <-> succeeds (CreateFunction._singlestore_signature self)
      /\ succeeds (a2u (SingleStoreUDF.library (CreateFunction.func self))).
Proof.
  split.
  - intros [out Hout]. unfold CreateUDA.compile in Hout.
    apply bind_OK in Hout. destruct Hout as [sig [Hsig Hout]].
    apply bind_OK in Hout. destruct Hout as [lib [Hlib _]].
    split; [exists sig; exact Hsig | exists lib; exact Hlib].
  - intros [[sig Hsig] [lib Hlib]].
    unfold CreateUDA.compile. rewrite Hsig. cbn [bind]. rewrite Hlib. cbn [bind].
    rewrite uda_loop. eexists. reflexivity.
Qed.

End Aggregate.


Example uda_two_hooks_golden :
  @CreateUDA.compile SampleHost.host uda_two_hooks
  = OK ("CREATE OR REPLACE AGGREGATE FUNCTION db.`total`(a bigint NOT NULL) "
          ++ "RETURNS bigint NOT NULL AS INFILE '/lib/total.wasm'" ++ LF
          ++ "update_fn=" ++ DQ ++ "total_update" ++ DQ ++ LF
          ++ "finalize_fn=" ++ DQ ++ "total_finalize" ++ DQ).
Proof. reflexivity. Qed.

(** ** Scalar functions *)

Section Scalar.

Context `{Host}.

Lemma language_clause_wasm (func : SingleStoreUDF.t) :
  SingleStoreUDF.language func = SingleStoreUDF.LANGUAGE_WASM func ->
  CreateUDF.language_clause func = OK "AS WASM".
Proof.
  intros E. unfold CreateUDF.language_clause.
  rewrite E, String.eqb_refl. reflexivity.
Qed.

Lemma language_clause_python (func : SingleStoreUDF.t) :
  SingleStoreUDF.language func <> SingleStoreUDF.LANGUAGE_WASM func ->
  SingleStoreUDF.language func = SingleStoreUDF.LANGUAGE_PYTHON func ->
  CreateUDF.language_clause func = OK "AS PYTHON".
Proof.
  intros Hw E. unfold CreateUDF.language_clause.
  apply String.eqb_neq in Hw. rewrite Hw.
  rewrite E, String.eqb_refl. reflexivity.
Qed.

(** For any other runtime the message is built from the library, whatever the
    runtime value is. *)
Lemma language_clause_other (func : SingleStoreUDF.t) (lib : string) :
  SingleStoreUDF.language func <> SingleStoreUDF.LANGUAGE_WASM func ->
  SingleStoreUDF.language func <> SingleStoreUDF.LANGUAGE_PYTHON func ->
  a2u (SingleStoreUDF.library func) = OK lib ->
  CreateUDF.language_clause func
  = Raise (ValueError ("Unsupported function language: " ++ lib ++ "'")).
Proof.
  intros Hw Hp Hlib. unfold CreateUDF.language_clause.
  apply String.eqb_neq in Hw, Hp. rewrite Hw, Hp, Hlib. reflexivity.
Qed.

(** The runtime clause opens the parameter line of every compiled scalar
    function. *)
Lemma udf_compile_runtime (self : CreateFunction.t) (out : string) :
  CreateUDF.compile self = OK out ->
  exists sig runtime rest,
    CreateFunction._singlestore_signature self = OK sig
    /\ CreateUDF.language_clause (CreateFunction.func self) = OK runtime
    /\ out = "CREATE OR REPLACE FUNCTION " ++ sig ++ " " ++ runtime ++ rest
    /\ ((SingleStoreUDF.language (CreateFunction.func self)
         = SingleStoreUDF.LANGUAGE_WASM (CreateFunction.func self)
         /\ runtime = "AS WASM")
        \/ (SingleStoreUDF.language (CreateFunction.func self)
            = SingleStoreUDF.LANGUAGE_PYTHON (CreateFunction.func self)
            /\ runtime = "AS PYTHON")).
Proof.
  intros Hout. unfold CreateUDF.compile in Hout.
  apply bind_OK in Hout. destruct Hout as [sig [Hsig Hout]].
  apply bind_OK in Hout. destruct Hout as [runtime [Hrun Hout]].
  apply bind_OK in Hout. destruct Hout as [line [Hline Hout]].
  injection Hout as <-.
  assert (Hrest : exists rest, line = runtime ++ rest).
  { unfold CreateUDF.library_clause in Hline.
    destruct (SingleStoreUDF.type (CreateFunction.func self)
              =? SingleStoreUDF.TYPE_FILE (CreateFunction.func self)).
    - apply bind_OK in Hline. destruct Hline as [lib [_ Hline]].
      injection Hline as <-. eexists. reflexivity.
    - destruct (SingleStoreUDF.type (CreateFunction.func self)
                =? SingleStoreUDF.TYPE_MODULE (CreateFunction.func self));
        [| discriminate Hline].
      apply bind_OK in Hline. destruct Hline as [lit [_ Hline]].
      injection Hline as <-. eexists. reflexivity. }
  destruct Hrest as [rest ->].
  exists sig, runtime, rest.
  split; [exact Hsig | split; [exact Hrun | split; [reflexivity |]]].
  unfold CreateUDF.language_clause in Hrun.
  destruct (SingleStoreUDF.language (CreateFunction.func self)
            =? SingleStoreUDF.LANGUAGE_WASM (CreateFunction.func self)) eqn:Hw.
  - left. apply String.eqb_eq in Hw. injection Hrun as <-. split; [exact Hw | reflexivity].
  - destruct (SingleStoreUDF.language (CreateFunction.func self)
              =? SingleStoreUDF.LANGUAGE_PYTHON (CreateFunction.func self)) eqn:Hp.
    + right. apply String.eqb_eq in Hp. injection Hrun as <-. split; [exact Hp | reflexivity].
    + destruct (a2u (SingleStoreUDF.library (CreateFunction.func self)));
        discriminate Hrun.
Qed.



End Scalar.


Example udf_module_none_golden :
  @CreateUDF.compile SampleHost.host udf_module_none
  = OK "CREATE OR REPLACE FUNCTION `f`(a int NOT NULL) RETURNS string NOT NULL AS PYTHON 'Jyc='".
Proof. reflexivity. Qed.


(** C2, at an unsupported runtime. The [ValueError] that [CreateUDF.compile]
    raises for the runtime [native] carries the library path followed by a
    stray quote; the runtime value does not occur in the message. *)
Theorem udf_unsupported_language_message :
  @CreateUDF.compile SampleHost.host udf_native
  = Raise (ValueError "Unsupported function language: /lib/f.so'")
  /\ String.index 0 "native" "Unsupported function language: /lib/f.so'" = None
  /\ String.index 0 "/lib/f.so" "Unsupported function language: /lib/f.so'" = Some 31.
Proof. repeat split; reflexivity. Qed.

(** ** Avro *)

Lemma insert_item_perm (kv : string * string) (sorted : list (string * string)) :
  Permutation (Json.insert_item kv sorted) (kv :: sorted).
Proof.
  induction sorted as [| kv' rest IH]; simpl.
  - apply Permutation_refl.
  - destruct (String.leb (fst kv) (fst kv')).
    + apply Permutation_refl.
    + eapply Permutation_trans; [apply perm_skip; exact IH | apply perm_swap].
Qed.

Lemma sort_items_perm (items : list (string * string)) :
  Permutation (Json.sort_items items) items.
Proof.
  induction items as [| kv items IH]; simpl.
  - apply Permutation_refl.
  - eapply Permutation_trans; [apply insert_item_perm | apply perm_skip; exact IH].
Qed.

Lemma insert_item_sorted (kv : string * string) (sorted : list (string * string)) :
  Sorted key_le sorted -> Sorted key_le (Json.insert_item kv sorted).
Proof.
  induction 1 as [| kv' rest Hrest IH Hhd]; simpl.
  - repeat constructor.
  - destruct (String.leb (fst kv) (fst kv')) eqn:Hle.
    + constructor; [constructor; assumption | constructor; exact Hle].
    + constructor; [exact IH |].
      assert (Hge : key_le kv' kv).
      { unfold key_le. destruct (String.leb_total (fst kv) (fst kv')) as [E | E];
          [rewrite E in Hle; discriminate Hle | exact E]. }
      destruct Hhd as [| kv'' rest' Hle']; simpl.
      * constructor. exact Hge.
      * destruct (String.leb (fst kv) (fst kv'')); constructor; assumption.
Qed.

Lemma sort_items_sorted (items : list (string * string)) :
  Sorted key_le (Json.sort_items items).
Proof.
  induction items as [| kv items IH]; simpl.
  - constructor.
  - apply insert_item_sorted. exact IH.
Qed.

(** A non-empty dictionary is written, under [sort_keys], as its items in key
    order, one per line, two more spaces deep than the braces. *)
Lemma dumps_dict_sorted (item : string * Json.value) (items : list (string * Json.value))
    (level : nat) :
  exists ordered,
    Json.encode 2 true level (Json.JDict (item :: items))
    = "{" ++ Json.newline_indent 2 (S level)
          ++ join ("," ++ Json.newline_indent 2 (S level)) (map item_text ordered)
          ++ Json.newline_indent 2 level ++ "}"
    /\ Sorted key_le ordered
    /\ Permutation ordered
         (map (fun kv => (fst kv, Json.encode 2 true (S level) (snd kv))) (item :: items)).
Proof.
  exists (Json.sort_items
            (map (fun kv => (fst kv, Json.encode 2 true (S level) (snd kv))) (item :: items))).
  split; [reflexivity | split].
  - apply sort_items_sorted.
  - apply sort_items_perm.
Qed.

Section Avro.

Context `{Host}.

(** The single piece of [CreateTableAvro]: the three clauses on three lines. *)
Lemma create_table_avro_pieces (self : CreateTableAvro.t) :
  Gen.collect (CreateTableAvro._pieces self)
  = OK [join LF
          ["STORED AS AVRO";
           "LOCATION '" ++ AvroFormat.path (CreateTableAvro.table_format self) ++ "'";
           format_tblproperties
             [("avro.schema.literal",
               schema_literal (AvroFormat.avro_schema (CreateTableAvro.table_format self)))]]].
Proof. reflexivity. Qed.

End Avro.

Example avro_golden :
  schema_literal avro_example
  = join LF
      ["{";
       "  " ++ DQ ++ "fields" ++ DQ ++ ": [";
       "    {";
       "      " ++ DQ ++ "name" ++ DQ ++ ": " ++ DQ ++ "id" ++ DQ ++ ",";
       "      " ++ DQ ++ "type" ++ DQ ++ ": " ++ DQ ++ "long" ++ DQ;
       "    }";
       "  ],";
       "  " ++ DQ ++ "name" ++ DQ ++ ": " ++ DQ ++ "row" ++ DQ ++ ",";
       "  " ++ DQ ++ "type" ++ DQ ++ ": " ++ DQ ++ "record" ++ DQ;
       "}"].
Proof. vm_compute. reflexivity. Qed.

(** ** Base64 text is ASCII *)

Lemma utf8_decode_ascii (bs : list N) :
  Forall (fun b => (b < 0x80)%N) bs -> Text.utf8_decode bs = Some bs.
Proof.
  induction 1 as [| b bs Hb Hbs IH]; simpl.
  - reflexivity.
  - apply N.ltb_lt in Hb. rewrite Hb, IH. reflexivity.
Qed.

Lemma to_N_byte_of_ascii (c : ascii) : Byte.to_N (byte_of_ascii c) = N_of_ascii c.
Proof.
  destruct c as [[] [] [] [] [] [] [] []]; reflexivity.
Qed.

Lemma base64_digit_ascii (n : N) : (N_of_ascii (Base64.digit n) < 0x80)%N.
Proof.
  unfold Base64.digit.
  remember (N.to_nat n) as k eqn:Hk. clear Hk n.
  do 64 (destruct k as [| k]; [reflexivity |]).
  rewrite get_beyond; [reflexivity | simpl; lia].
Qed.

Lemma base64_chars_ascii (bs : list byte) :
  Forall (fun c => (N_of_ascii c < 0x80)%N) (Base64.encode_chars bs).
Proof.
  assert (Hgen : forall n bs', List.length bs' <= n ->
                   Forall (fun c => (N_of_ascii c < 0x80)%N) (Base64.encode_chars bs')).
  { induction n as [| n IH]; intros bs' Hlen.
    - destruct bs'; [constructor | simpl in Hlen; lia].
    - destruct bs' as [| a [| b [| c rest]]]; simpl.
      + constructor.
      + repeat constructor; apply base64_digit_ascii.
      + repeat constructor; apply base64_digit_ascii.
      + repeat (constructor; [apply base64_digit_ascii |]).
        apply IH. simpl in Hlen. lia. }
  apply (Hgen (List.length bs)). lia.
Qed.

(** [base64.b64encode(...).decode('utf-8')] never raises. *)
Lemma b64encode_decodes (bs : list byte) :
  decode_utf8 (Base64.b64encode bs) = OK (string_of_list_byte (Base64.b64encode bs)).
Proof.
  unfold decode_utf8, Base64.b64encode.
  rewrite utf8_decode_ascii; [reflexivity |].
  rewrite map_map.
  pose proof (base64_chars_ascii bs) as Hall.
  induction Hall as [| c cs Hc Hcs IH]; simpl; constructor.
  - rewrite to_N_byte_of_ascii. exact Hc.
  - exact IH.
Qed.

Section ScalarTotal.

Context `{Host}.

(** A scalar function compiles whenever its signature renders, its runtime is
    one of the two supported ones, and its library is a file whose path reads
    as text or an embedded module. *)
Lemma udf_compile_succeeds (self : CreateFunction.t) :
  succeeds (CreateFunction._singlestore_signature self) ->
  SingleStoreUDF.language (CreateFunction.func self)
  = SingleStoreUDF.LANGUAGE_WASM (CreateFunction.func self)
  \/ SingleStoreUDF.language (CreateFunction.func self)
     = SingleStoreUDF.LANGUAGE_PYTHON (CreateFunction.func self) ->
  (SingleStoreUDF.type (CreateFunction.func self)
   = SingleStoreUDF.TYPE_FILE (CreateFunction.func self)
   /\ succeeds (a2u (SingleStoreUDF.library (CreateFunction.func self))))
  \/ (SingleStoreUDF.type (CreateFunction.func self)
      <> SingleStoreUDF.TYPE_FILE (CreateFunction.func self)
      /\ SingleStoreUDF.type (CreateFunction.func self)
         = SingleStoreUDF.TYPE_MODULE (CreateFunction.func self)) ->
  succeeds (CreateUDF.compile self).
Proof.
  intros [sig Hsig] Hlang Hlib.
  unfold CreateUDF.compile. rewrite Hsig. cbn [bind].
  assert (Hrun : succeeds (CreateUDF.language_clause (CreateFunction.func self))).
  { destruct (String.eqb_spec (SingleStoreUDF.language (CreateFunction.func self))
                (SingleStoreUDF.LANGUAGE_WASM (CreateFunction.func self))) as [Hw | Hw].
    - eexists. apply language_clause_wasm. exact Hw.
    - destruct Hlang as [Hl | Hl]; [contradiction |].
      eexists. apply language_clause_python; assumption. }
  destruct Hrun as [runtime Hrun]. rewrite Hrun. cbn [bind].
  unfold CreateUDF.library_clause.
  destruct Hlib as [[Hfile [lib Hlib]] | [Hfile Hmod]].
  - rewrite Hfile, String.eqb_refl, Hlib. cbn [bind]. eexists. reflexivity.
  - apply String.eqb_neq in Hfile. rewrite Hfile.
    rewrite Hmod, String.eqb_refl.
    rewrite b64encode_decodes. cbn [bind]. eexists. reflexivity.
Qed.

End ScalarTotal.

(** * Further properties *)

(** ** Facts on strings *)

Lemma append_assoc (a b c : string) : (a ++ b) ++ c = a ++ b ++ c.
Proof.
  induction a as [| x a IH]; simpl; [reflexivity | rewrite IH; reflexivity].
Qed.

Lemma append_nil_r (a : string) : a ++ "" = a.
Proof.
  induction a as [| x a IH]; simpl; [reflexivity | rewrite IH; reflexivity].
Qed.


Lemma list_of_append (a b : string) :
  list_ascii_of_string (a ++ b)
  = List.app (list_ascii_of_string a) (list_ascii_of_string b).
Proof.
  induction a as [| x a IH]; simpl; [reflexivity | rewrite IH; reflexivity].
Qed.

(** Two texts with the same closing text are equal. *)
Lemma append_inv_tail (a b c : string) : a ++ c = b ++ c -> a = b.
Proof.
  intros E.
  assert (El : List.app (list_ascii_of_string a) (list_ascii_of_string c)
               = List.app (list_ascii_of_string b) (list_ascii_of_string c)).
  { rewrite <- !list_of_append, E. reflexivity. }
  apply app_inv_tail in El.
  rewrite <- (string_of_list_ascii_of_string a), <- (string_of_list_ascii_of_string b), El.
  reflexivity.
Qed.

(** ** When the signature renderer succeeds, and what it raises *)

Section SignatureOutcome.

Context `{Host}.

Lemma all_spelled_spellings (inputs : list string) :
  all_spelled inputs -> exists spellings, spelled inputs spellings.
Proof.
  induction 1 as [| x inputs [ty Hx] _ [spellings IH]].
  - exists []. constructor.
  - exists (ty :: spellings). constructor; assumption.
Qed.

Lemma render_parameters_spelled (inputs : list string) (k : nat) (params : list string) :
  mapM render_parameter (combine (seq k (List.length inputs)) inputs) = OK params ->
  all_spelled inputs.
Proof.
  revert k params. induction inputs as [| x inputs IH]; intros k params Hok.
  - constructor.
  - simpl in Hok.
    apply bind_OK in Hok. destruct Hok as [p [Hp Hok]].
    apply bind_OK in Hok. destruct Hok as [ps [Hps _]].
    unfold render_parameter in Hp. simpl in Hp.
    apply bind_OK in Hp. destruct Hp as [letter [_ Hp]].
    apply bind_OK in Hp. destruct Hp as [ty [Hty _]].
    constructor; [exists ty; exact Hty | exact (IH (S k) ps Hps)].
Qed.

(** X1. The signature renderer returns a signature exactly when there are at
    most 52 input types and each of them has a dialect spelling. *)
Theorem input_signature_succeeds_iff (inputs : list string) :
  succeeds (_singlestore_input_signature inputs)
  <-> List.length inputs <= 52 /\ all_spelled inputs.
Proof.
  rewrite input_signature_unfold. unfold enumerate. split.
  - intros [sig Hsig].
    apply bind_OK in Hsig. destruct Hsig as [params [Hparams _]].
    split; [| exact (render_parameters_spelled inputs 0 params Hparams)].
    destruct (le_lt_dec (List.length inputs) 52) as [Hle | Hgt]; [exact Hle |].
    destruct (render_parameters_overflow inputs 0) as [Hnever _]; [lia | lia |].
    exfalso. exact (Hnever params Hparams).
  - intros [Hlen Hall].
    destruct (all_spelled_spellings inputs Hall) as [spellings Hsp].
    rewrite (render_parameters_from inputs spellings 0 Hsp) by (simpl; exact Hlen).
    eexists. reflexivity.
Qed.

Lemma render_parameters_first_error (pre post : list string) (x : string) (e : exn)
    (k : nat) :
  k + List.length pre < 52 ->
  all_spelled pre ->
  type_to_sql_string x = Raise e ->
  mapM render_parameter
    (combine (seq k (List.length (List.app pre (x :: post)))) (List.app pre (x :: post)))
  = Raise e.
Proof.
  intros Hlen Hpre Hx. revert k Hlen.
  induction Hpre as [| p pre [ty Hp] _ IH]; intros k Hlen; simpl in *.
  - unfold render_parameter at 1. simpl.
    rewrite index_ascii_letters by lia. simpl. rewrite Hx. reflexivity.
  - unfold render_parameter at 1. simpl.
    rewrite index_ascii_letters by lia. simpl. rewrite Hp. simpl.
    rewrite IH by lia. reflexivity.
Qed.

(** X2. When the first input type without a dialect spelling is among the
    first 52, the renderer raises the translator's exception for that type,
    whatever follows it and however long the list is. *)
Theorem input_signature_first_error (pre post : list string) (x : string) (e : exn) :
  List.length pre < 52 ->
  all_spelled pre ->
  type_to_sql_string x = Raise e ->
  _singlestore_input_signature (List.app pre (x :: post)) = Raise e.
Proof.
  intros Hlen Hpre Hx.
  rewrite input_signature_unfold. unfold enumerate.
  rewrite (render_parameters_first_error pre post x e 0) by (simpl; assumption).
  reflexivity.
Qed.

(** X3. The signature of a [CreateFunction] extends the signature of the
    [DropFunction] for the same symbol, input types and database: whenever
    the create signature renders, the drop signature renders too, and the
    create signature is the drop signature followed by [ RETURNS <type> NOT
    NULL]. *)
Theorem create_signature_extends_drop (self : CreateFunction.t) (sig : string)
    (must_exist aggregate : bool) :
  CreateFunction._singlestore_signature self = OK sig ->
  exists drop_sig output_sig,
    DropFunction._singlestore_signature (drop_of self must_exist aggregate) = OK drop_sig
    /\ type_to_sql_string (SingleStoreUDF.output (CreateFunction.func self)) = OK output_sig
    /\ sig = drop_sig ++ " RETURNS " ++ output_sig ++ " NOT NULL".
Proof.
  intros Hsig. unfold CreateFunction._singlestore_signature in Hsig.
  apply bind_OK in Hsig. destruct Hsig as [input_sig [Hin Hsig]].
  apply bind_OK in Hsig. destruct Hsig as [output_sig [Hout Hsig]].
  injection Hsig as <-.
  exists (_get_scoped_name (SingleStoreUDF.symbol (CreateFunction.func self))
            (CreateFunction.database self) ++ "(" ++ input_sig ++ ")"), output_sig.
  split; [| split].
  - unfold DropFunction._singlestore_signature, drop_of. simpl. rewrite Hin. reflexivity.
  - exact Hout.
  - rewrite !append_assoc. reflexivity.
Qed.

End SignatureOutcome.

Lemma input_signature_first_error_witness :
  @_singlestore_input_signature SampleHost.host
    (List.app ["int32"] ("geometry" :: repeat "int64" 60))
  = Raise (UnsupportedBackendType "geometry").
Proof.
  apply (@input_signature_first_error SampleHost.host ["int32"]
           (repeat "int64" 60) "geometry" (UnsupportedBackendType "geometry")).
  - simpl. lia.
  - constructor; [exists "int"; reflexivity | constructor].
  - reflexivity.
Defined.

Lemma create_signature_extends_drop_witness :
  exists drop_sig output_sig,
    @DropFunction._singlestore_signature SampleHost.host
      (drop_of uda_two_hooks true true) = OK drop_sig
    /\ @type_to_sql_string SampleHost.host
         (SingleStoreUDF.output (CreateFunction.func uda_two_hooks)) = OK output_sig
    /\ "db.`total`(a bigint NOT NULL) RETURNS bigint NOT NULL"
       = drop_sig ++ " RETURNS " ++ output_sig ++ " NOT NULL".
Proof.
  apply (@create_signature_extends_drop SampleHost.host uda_two_hooks
           "db.`total`(a bigint NOT NULL) RETURNS bigint NOT NULL" true true).
  reflexivity.
Defined.

(** ** The outcome of compiling a scalar function *)

Section ScalarOutcome.

Context `{Host}.

Lemma library_clause_succeeds (func : SingleStoreUDF.t) (param_line : string) :
  succeeds (CreateUDF.library_clause func param_line)
  <-> (SingleStoreUDF.type func = SingleStoreUDF.TYPE_FILE func
       /\ succeeds (a2u (SingleStoreUDF.library func)))
      \/ (SingleStoreUDF.type func <> SingleStoreUDF.TYPE_FILE func
          /\ SingleStoreUDF.type func = SingleStoreUDF.TYPE_MODULE func).
Proof.
  unfold CreateUDF.library_clause.
  destruct (String.eqb_spec (SingleStoreUDF.type func) (SingleStoreUDF.TYPE_FILE func))
    as [Hfile | Hfile].
  - split.
    + intros [out Hout]. apply bind_OK in Hout. destruct Hout as [lib [Hlib _]].
      left. split; [exact Hfile | exists lib; exact Hlib].
    + intros [[_ [lib Hlib]] | [Hno _]]; [| contradiction].
      rewrite Hlib. eexists. reflexivity.
  - destruct (String.eqb_spec (SingleStoreUDF.type func) (SingleStoreUDF.TYPE_MODULE func))
      as [Hmod | Hmod].
    + split.
      * intros _. right. split; assumption.
      * intros _. rewrite b64encode_decodes. eexists. reflexivity.
    + split.
      * intros [out Hout]. discriminate Hout.
      * intros [[Hyes _] | [_ Hyes]]; contradiction.
Qed.

Lemma language_clause_succeeds (func : SingleStoreUDF.t) :
  succeeds (CreateUDF.language_clause func)
  <-> SingleStoreUDF.language func = SingleStoreUDF.LANGUAGE_WASM func
      \/ SingleStoreUDF.language func = SingleStoreUDF.LANGUAGE_PYTHON func.
Proof.
  unfold CreateUDF.language_clause.
  destruct (String.eqb_spec (SingleStoreUDF.language func)
              (SingleStoreUDF.LANGUAGE_WASM func)) as [Hw | Hw].
  - split; [intros _; left; exact Hw | intros _; eexists; reflexivity].
  - destruct (String.eqb_spec (SingleStoreUDF.language func)
                (SingleStoreUDF.LANGUAGE_PYTHON func)) as [Hp | Hp].
    + split; [intros _; right; exact Hp | intros _; eexists; reflexivity].
    + split.
      * intros [out Hout].
        destruct (a2u (SingleStoreUDF.library func)); discriminate Hout.
      * intros [Hyes | Hyes]; contradiction.
Qed.

(** X4. [CreateUDF.compile] returns a statement exactly when the signature
    renders, the runtime is one of the two supported ones, and the library is
    either a file whose path reads as text or an embedded module; an embedded
    module never fails, whatever its content. *)
Theorem udf_compile_succeeds_iff (self : CreateFunction.t) :
  succeeds (CreateUDF.compile self)
  <-> succeeds (CreateFunction._singlestore_signature self)
      /\ (SingleStoreUDF.language (CreateFunction.func self)
          = SingleStoreUDF.LANGUAGE_WASM (CreateFunction.func self)
          \/ SingleStoreUDF.language (CreateFunction.func self)
             = SingleStoreUDF.LANGUAGE_PYTHON (CreateFunction.func self))
      /\ ((SingleStoreUDF.type (CreateFunction.func self)
           = SingleStoreUDF.TYPE_FILE (CreateFunction.func self)
           /\ succeeds (a2u (SingleStoreUDF.library (CreateFunction.func self))))
          \/ (SingleStoreUDF.type (CreateFunction.func self)
              <> SingleStoreUDF.TYPE_FILE (CreateFunction.func self)
              /\ SingleStoreUDF.type (CreateFunction.func self)
                 = SingleStoreUDF.TYPE_MODULE (CreateFunction.func self))).
Proof.
  unfold CreateUDF.compile. split.
  - intros [out Hout].
    apply bind_OK in Hout. destruct Hout as [sig [Hsig Hout]].
    apply bind_OK in Hout. destruct Hout as [runtime [Hrun Hout]].
    apply bind_OK in Hout. destruct Hout as [line [Hline _]].
    split; [exists sig; exact Hsig | split].
    + apply language_clause_succeeds. exists runtime. exact Hrun.
    + apply (library_clause_succeeds _ runtime). exists line. exact Hline.
  - intros [[sig Hsig] [Hlang Hlib]].
    apply language_clause_succeeds in Hlang. destruct Hlang as [runtime Hrun].
    apply (library_clause_succeeds _ runtime) in Hlib. destruct Hlib as [line Hline].
    rewrite Hsig. cbn [bind]. rewrite Hrun. cbn [bind]. rewrite Hline. cbn [bind].
    eexists. reflexivity.
Qed.

Lemma language_clause_raises (func : SingleStoreUDF.t) (e : exn) :
  CreateUDF.language_clause func = Raise e
  <-> SingleStoreUDF.language func <> SingleStoreUDF.LANGUAGE_WASM func
      /\ SingleStoreUDF.language func <> SingleStoreUDF.LANGUAGE_PYTHON func
      /\ (a2u (SingleStoreUDF.library func) = Raise e
          \/ exists lib,
               a2u (SingleStoreUDF.library func) = OK lib
               /\ e = ValueError ("Unsupported function language: " ++ lib ++ "'")).
Proof.
  unfold CreateUDF.language_clause.
  destruct (String.eqb_spec (SingleStoreUDF.language func)
              (SingleStoreUDF.LANGUAGE_WASM func)) as [Hw | Hw].
  { split; [intros E; discriminate E | intros [Hno _]; contradiction]. }
  destruct (String.eqb_spec (SingleStoreUDF.language func)
              (SingleStoreUDF.LANGUAGE_PYTHON func)) as [Hp | Hp].
  { split; [intros E; discriminate E | intros [_ [Hno _]]; contradiction]. }
  destruct (a2u (SingleStoreUDF.library func)) as [lib | e0]; cbn [bind].
  - split.
    + intros E. injection E as <-.
      split; [exact Hw | split; [exact Hp |]].
      right. exists lib. split; reflexivity.
    + intros [_ [_ [E | [lib' [E ->]]]]]; [discriminate E |].
      injection E as ->. reflexivity.
  - split.
    + intros E. split; [exact Hw | split; [exact Hp |]]. left. exact E.
    + intros [_ [_ [E | [lib' [E _]]]]]; [exact E | discriminate E].
Qed.

Lemma library_clause_raises (func : SingleStoreUDF.t) (param_line : string) (e : exn) :
  CreateUDF.library_clause func param_line = Raise e
  <-> (SingleStoreUDF.type func = SingleStoreUDF.TYPE_FILE func
       /\ a2u (SingleStoreUDF.library func) = Raise e)
      \/ (SingleStoreUDF.type func <> SingleStoreUDF.TYPE_FILE func
          /\ SingleStoreUDF.type func <> SingleStoreUDF.TYPE_MODULE func
          /\ e = ValueError "Unsupported function format").
Proof.
  unfold CreateUDF.library_clause.
  destruct (String.eqb_spec (SingleStoreUDF.type func) (SingleStoreUDF.TYPE_FILE func))
    as [Hfile | Hfile].
  - destruct (a2u (SingleStoreUDF.library func)) as [lib | e0]; cbn [bind].
    + split; [intros E; discriminate E |].
      intros [[_ E] | [Hno _]]; [discriminate E | contradiction].
    + split; [intros E; left; split; [exact Hfile | exact E] |].
      intros [[_ E] | [Hno _]]; [exact E | contradiction].
  - destruct (String.eqb_spec (SingleStoreUDF.type func) (SingleStoreUDF.TYPE_MODULE func))
      as [Hmod | Hmod].
    + rewrite b64encode_decodes. cbn [bind].
      split; [intros E; discriminate E |].
      intros [[Hyes _] | [_ [Hno _]]]; contradiction.
    + split.
      * intros E. injection E as <-. right. repeat split; assumption.
      * intros [[Hyes _] | [_ [_ ->]]]; [contradiction | reflexivity].
Qed.

(** X5. What [CreateUDF.compile] raises, exactly. It raises [e] if and only
    if one of three things holds. The signature raises [e]. Or the signature
    renders, the runtime is neither of the two supported ones, and either
    reading the library as text raises [e] or the library reads as the text
    [lib] and [e] is the [ValueError] whose message is built from [lib]. Or
    the signature renders, the runtime is supported, and either the library
    is a file and reading it as text raises [e], or the library is neither a
    file nor a module and [e] is [ValueError('Unsupported function
    format')]. *)
Theorem udf_compile_raises (self : CreateFunction.t) (e : exn) :
  CreateUDF.compile self = Raise e
  <-> CreateFunction._singlestore_signature self = Raise e
      \/ (succeeds (CreateFunction._singlestore_signature self)
          /\ SingleStoreUDF.language (CreateFunction.func self)
             <> SingleStoreUDF.LANGUAGE_WASM (CreateFunction.func self)
          /\ SingleStoreUDF.language (CreateFunction.func self)
             <> SingleStoreUDF.LANGUAGE_PYTHON (CreateFunction.func self)
          /\ (a2u (SingleStoreUDF.library (CreateFunction.func self)) = Raise e
              \/ exists lib,
                   a2u (SingleStoreUDF.library (CreateFunction.func self)) = OK lib
                   /\ e = ValueError ("Unsupported function language: " ++ lib ++ "'")))
      \/ (succeeds (CreateFunction._singlestore_signature self)
          /\ (SingleStoreUDF.language (CreateFunction.func self)
              = SingleStoreUDF.LANGUAGE_WASM (CreateFunction.func self)
              \/ SingleStoreUDF.language (CreateFunction.func self)
                 = SingleStoreUDF.LANGUAGE_PYTHON (CreateFunction.func self))
          /\ ((SingleStoreUDF.type (CreateFunction.func self)
               = SingleStoreUDF.TYPE_FILE (CreateFunction.func self)
               /\ a2u (SingleStoreUDF.library (CreateFunction.func self)) = Raise e)
              \/ (SingleStoreUDF.type (CreateFunction.func self)
                  <> SingleStoreUDF.TYPE_FILE (CreateFunction.func self)
                  /\ SingleStoreUDF.type (CreateFunction.func self)
                     <> SingleStoreUDF.TYPE_MODULE (CreateFunction.func self)
                  /\ e = ValueError "Unsupported function format"))).
Proof.
  unfold CreateUDF.compile.
  destruct (CreateFunction._singlestore_signature self) as [sig | e0] eqn:Hsig; cbn [bind].
  - assert (Hs : succeeds (OK sig : result string)) by (exists sig; reflexivity).
    destruct (CreateUDF.language_clause (CreateFunction.func self)) as [runtime | e1] eqn:Hrun;
      cbn [bind].
    + assert (Hlang : succeeds (CreateUDF.language_clause (CreateFunction.func self)))
        by (exists runtime; exact Hrun).
      apply language_clause_succeeds in Hlang.
      destruct (CreateUDF.library_clause (CreateFunction.func self) runtime)
        as [line | e2] eqn:Hline; cbn [bind].
      * split; [intros E; discriminate E |].
        intros [E | [[_ [Hw [Hp _]]] | [_ [_ Hlib]]]].
        -- discriminate E.
        -- destruct Hlang; contradiction.
        -- apply (library_clause_raises _ runtime) in Hlib.
           rewrite Hline in Hlib. discriminate Hlib.
      * split.
        -- intros E. injection E as <-. right. right.
           split; [exact Hs | split; [exact Hlang |]].
           apply (library_clause_raises _ runtime). exact Hline.
        -- intros [E | [[_ [Hw [Hp _]]] | [_ [_ Hlib]]]].
           ++ discriminate E.
           ++ destruct Hlang; contradiction.
           ++ apply (library_clause_raises _ runtime) in Hlib.
              rewrite Hline in Hlib. exact Hlib.
    + split.
      * intros E. injection E as <-. right. left.
        split; [exact Hs |]. apply language_clause_raises. exact Hrun.
      * intros [E | [[_ Hlang] | [_ [Hlang _]]]].
        -- discriminate E.
        -- apply language_clause_raises in Hlang. rewrite Hrun in Hlang. exact Hlang.
        -- apply language_clause_succeeds in Hlang. destruct Hlang as [runtime Hno].
           rewrite Hrun in Hno. discriminate Hno.
  - split.
    + intros E. left. exact E.
    + intros [E | [[[s Hno] _] | [[s Hno] _]]]; [exact E | discriminate Hno | discriminate Hno].
Qed.

(** X6. The name given to a [CreateFunction] never reaches the compiled text:
    the statement names the function by its symbol, so two statements for the
    same function and database that differ in the name compile alike, as a
    scalar and as an aggregate function. *)
Theorem create_function_name_unread (func : SingleStoreUDF.t) (name1 name2 database : option string) :
  CreateUDF.compile (CreateFunction.init func name1 database)
  = CreateUDF.compile (CreateFunction.init func name2 database)
  /\ CreateUDA.compile (CreateFunction.init func name1 database)
     = CreateUDA.compile (CreateFunction.init func name2 database)
  /\ CreateFunction._singlestore_signature (CreateFunction.init func name1 database)
     = let* input_sig := _singlestore_input_signature (SingleStoreUDF.inputs func) in
       let* output_sig := type_to_sql_string (SingleStoreUDF.output func) in
       OK (_get_scoped_name (SingleStoreUDF.symbol func) database
             ++ "(" ++ input_sig ++ ") RETURNS " ++ output_sig ++ " NOT NULL").
Proof.
  split; [| split]; reflexivity.
Qed.

End ScalarOutcome.

Example udf_native_raises :
  @CreateUDF.compile SampleHost.host udf_native
  = Raise (ValueError "Unsupported function language: /lib/f.so'").
Proof. reflexivity. Qed.

(** ** The embedded-module literal *)

Lemma get_in (s : string) (k : nat) (c : ascii) :
  String.get k s = Some c -> In c (list_ascii_of_string s).
Proof.
  revert k. induction s as [| x s IH]; intros k Hget; simpl in Hget.
  - discriminate Hget.
  - destruct k as [| k].
    + injection Hget as ->. left. reflexivity.
    + right. exact (IH k Hget).
Qed.

Lemma base64_digit_char (n : N) : base64_char (Base64.digit n).
Proof.
  unfold base64_char, Base64.digit.
  destruct (String.get (N.to_nat n) Base64.alphabet) as [c |] eqn:Hget.
  - left. exact (get_in _ _ _ Hget).
  - right. reflexivity.
Qed.

(** Base64 text is made of digits and padding, four characters for every
    group of up to three octets. *)
Lemma base64_chars_shape (bs : list byte) :
  Forall base64_char (Base64.encode_chars bs)
  /\ exists groups,
       List.length (Base64.encode_chars bs) = 4 * groups
       /\ List.length bs <= 3 * groups < List.length bs + 3.
Proof.
  assert (Hgen : forall n bs', List.length bs' <= n ->
                   Forall base64_char (Base64.encode_chars bs')
                   /\ exists groups,
                        List.length (Base64.encode_chars bs') = 4 * groups
                        /\ List.length bs' <= 3 * groups < List.length bs' + 3).
  { assert (Hpad : base64_char Base64.pad) by (right; reflexivity).
    induction n as [| n IH]; intros bs' Hlen.
    - destruct bs'; [| simpl in Hlen; lia].
      split; [constructor | exists 0; simpl; lia].
    - destruct bs' as [| a [| b [| c rest]]].
      + split; [constructor | exists 0; simpl; lia].
      + split; [| exists 1; simpl; lia].
        simpl.
        constructor; [apply base64_digit_char |].
        constructor; [apply base64_digit_char |].
        constructor; [exact Hpad |].
        constructor; [exact Hpad | constructor].
      + split; [| exists 1; simpl; lia].
        simpl.
        constructor; [apply base64_digit_char |].
        constructor; [apply base64_digit_char |].
        constructor; [apply base64_digit_char |].
        constructor; [exact Hpad | constructor].
      + destruct (IH rest) as [Hall [groups [Hlen4 Hbound]]]; [simpl in Hlen; lia |].
        split.
        * simpl. repeat (constructor; [apply base64_digit_char |]). exact Hall.
        * exists (S groups).
          change (Base64.encode_chars (a :: b :: c :: rest))
            with (Base64.sextet (Base64.pack a b c) 3
                    :: Base64.sextet (Base64.pack a b c) 2
                    :: Base64.sextet (Base64.pack a b c) 1
                    :: Base64.sextet (Base64.pack a b c) 0
                    :: Base64.encode_chars rest).
          simpl List.length. lia. }
  apply (Hgen (List.length bs)). lia.
Qed.

Lemma base64_char_not_quote (c : ascii) : base64_char c -> c <> "'"%char.
Proof.
  intros [Hin | ->]; [| discriminate].
  intros ->.
  assert (Hno : existsb (Ascii.eqb "'"%char) (list_ascii_of_string Base64.alphabet) = false)
    by reflexivity.
  assert (Hyes : existsb (Ascii.eqb "'"%char) (list_ascii_of_string Base64.alphabet) = true).
  { apply existsb_exists. exists "'"%char. split; [exact Hin | apply Ascii.eqb_refl]. }
  rewrite Hno in Hyes. discriminate Hyes.
Qed.

Lemma string_of_b64encode (bs : list byte) :
  string_of_list_byte (Base64.b64encode bs) = string_of_list_ascii (Base64.encode_chars bs).
Proof.
  unfold Base64.b64encode, string_of_list_byte. rewrite map_map.
  f_equal. rewrite <- (map_id (Base64.encode_chars bs)) at 2.
  apply map_ext. intros c. apply ascii_of_byte_of_ascii.
Qed.

Lemma repr_or_empty_nonempty (isprintable : N -> bool) (v : pyval) :
  encode_utf8 (Repr.repr isprintable (or_empty v)) <> [].
Proof.
  assert (Hchr : forall q rest,
             (q = 34 \/ q = 39)%N -> encode_utf8 (Text.chr q ++ rest) <> []).
  { intros q rest [-> | ->]; discriminate. }
  assert (Hq : forall cs, (Repr.quote_for cs = 34 \/ Repr.quote_for cs = 39)%N).
  { intros cs. unfold Repr.quote_for.
    destruct (Repr.mem 39 cs && negb (Repr.mem 34 cs)); [left | right]; reflexivity. }
  unfold or_empty. destruct (truthy v) eqn:Hv.
  - destruct v as [| s | b]; simpl.
    + discriminate Hv.
    + unfold Repr.of_str. apply Hchr, Hq.
    + discriminate.
  - simpl. unfold Repr.of_str. apply Hchr, Hq.
Qed.

Section ModuleLiteral.

Context `{Host}.

(** X7. For an embedded module, whatever its content, the library clause is
    the parameter line followed by one quoted literal; the literal is base64
    text (digits and padding only, a positive multiple of four characters),
    so it holds no quote character. *)
Theorem module_literal_base64 (func : SingleStoreUDF.t) (param_line : string) :
  SingleStoreUDF.type func <> SingleStoreUDF.TYPE_FILE func ->
  SingleStoreUDF.type func = SingleStoreUDF.TYPE_MODULE func ->
  exists literal,
    CreateUDF.library_clause func param_line = OK (param_line ++ " '" ++ literal ++ "'")
    /\ Forall base64_char (list_ascii_of_string literal)
    /\ ~ In "'"%char (list_ascii_of_string literal)
    /\ exists groups, String.length literal = 4 * groups /\ 0 < groups.
Proof.
  intros Hfile Hmod.
  set (payload := encode_utf8 (Repr.repr isprintable (or_empty (SingleStoreUDF.library func)))).
  exists (string_of_list_ascii (Base64.encode_chars payload)).
  destruct (base64_chars_shape payload) as [Hall [groups [Hlen Hbound]]].
  rewrite list_ascii_of_string_of_list_ascii.
  split; [| split; [exact Hall | split]].
  - unfold CreateUDF.library_clause.
    apply String.eqb_neq in Hfile. rewrite Hfile, Hmod, String.eqb_refl.
    fold payload. rewrite b64encode_decodes, string_of_b64encode. reflexivity.
  - intros Hin. rewrite Forall_forall in Hall.
    exact (base64_char_not_quote _ (Hall _ Hin) eq_refl).
  - exists groups. split.
    + rewrite <- Hlen.
      rewrite <- (list_ascii_of_string_of_list_ascii (Base64.encode_chars payload)) at 2.
      generalize (string_of_list_ascii (Base64.encode_chars payload)).
      intros s. induction s as [| c s IH]; simpl; [reflexivity | rewrite IH; reflexivity].
    + assert (Hne : payload <> []) by apply repr_or_empty_nonempty.
      destruct payload; [contradiction | simpl in Hbound; lia].
Qed.

End ModuleLiteral.

Lemma module_literal_base64_witness :
  exists literal,
    @CreateUDF.library_clause SampleHost.host (CreateFunction.func udf_module_none) "AS PYTHON"
    = OK ("AS PYTHON" ++ " '" ++ literal ++ "'")
    /\ Forall base64_char (list_ascii_of_string literal)
    /\ ~ In "'"%char (list_ascii_of_string literal)
    /\ exists groups, String.length literal = 4 * groups /\ 0 < groups.
Proof.
  apply (@module_literal_base64 SampleHost.host (CreateFunction.func udf_module_none)
           "AS PYTHON").
  - simpl. discriminate.
  - reflexivity.
Defined.

(** ** The library as bytes and as text *)

Lemma octets_of_bytes (s : string) : map Byte.to_N (list_byte_of_string s) = Text.octets s.
Proof.
  unfold list_byte_of_string, Text.octets. rewrite map_map.
  apply map_ext. intros c. apply to_N_byte_of_ascii.
Qed.

Lemma a2u_encoded_text (s : string) :
  is_text s -> a2u (PyBytes (encode_utf8 s)) = OK s.
Proof.
  intros Htext. unfold is_text in Htext. unfold a2u, decode_utf8, encode_utf8.
  rewrite octets_of_bytes.
  destruct (Text.utf8_decode (Text.octets s)); [| exfalso; apply Htext; reflexivity].
  rewrite string_of_list_byte_of_string. reflexivity.
Qed.

Section LibraryBytes.

Context `{Host}.

(** X8. [a2u] turns the UTF-8 bytes of a text back into that text, so a
    library path given as bytes compiles to the same aggregate-function
    statement, and to the same file-library clause of a scalar function, as
    the path given as text. *)
Theorem library_bytes_as_text (func : SingleStoreUDF.t) (path : string)
    (name database : option string) (param_line : string) :
  is_text path ->
  a2u (PyBytes (encode_utf8 path)) = a2u (PyStr path)
  /\ CreateUDA.compile
       (CreateFunction.init (with_library func (PyBytes (encode_utf8 path))) name database)
     = CreateUDA.compile
         (CreateFunction.init (with_library func (PyStr path)) name database)
  /\ (SingleStoreUDF.type func = SingleStoreUDF.TYPE_FILE func ->
      CreateUDF.library_clause (with_library func (PyBytes (encode_utf8 path))) param_line
      = OK (param_line ++ " INFILE '" ++ path ++ "'")).
Proof.
  intros Htext. pose proof (a2u_encoded_text path Htext) as Hbytes.
  split; [exact Hbytes | split].
  - unfold CreateUDA.compile.
    change (CreateFunction._singlestore_signature
              (CreateFunction.init (with_library func (PyBytes (encode_utf8 path)))
                 name database))
      with (CreateFunction._singlestore_signature
              (CreateFunction.init (with_library func (PyStr path)) name database)).
    destruct (CreateFunction._singlestore_signature
                (CreateFunction.init (with_library func (PyStr path)) name database));
      [| reflexivity].
    cbn [bind].
    change (SingleStoreUDF.library
              (CreateFunction.func
                 (CreateFunction.init (with_library func (PyBytes (encode_utf8 path)))
                    name database)))
      with (PyBytes (encode_utf8 path)).
    rewrite Hbytes. reflexivity.
  - intros Hfile. unfold CreateUDF.library_clause.
    change (SingleStoreUDF.type (with_library func (PyBytes (encode_utf8 path))))
      with (SingleStoreUDF.type func).
    change (SingleStoreUDF.TYPE_FILE (with_library func (PyBytes (encode_utf8 path))))
      with (SingleStoreUDF.TYPE_FILE func).
    rewrite Hfile, String.eqb_refl.
    change (SingleStoreUDF.library (with_library func (PyBytes (encode_utf8 path))))
      with (PyBytes (encode_utf8 path)).
    rewrite Hbytes. reflexivity.
Qed.

End LibraryBytes.

Lemma library_bytes_as_text_witness :
  a2u (PyBytes (encode_utf8 "/lib/total.wasm")) = a2u (PyStr "/lib/total.wasm")
  /\ @CreateUDA.compile SampleHost.host
       (CreateFunction.init
          (with_library SampleHost.udf (PyBytes (encode_utf8 "/lib/total.wasm")))
          None (Some "db"))
     = @CreateUDA.compile SampleHost.host
         (CreateFunction.init (with_library SampleHost.udf (PyStr "/lib/total.wasm"))
            None (Some "db"))
  /\ (SingleStoreUDF.type SampleHost.udf = SingleStoreUDF.TYPE_FILE SampleHost.udf ->
      @CreateUDF.library_clause SampleHost.host
        (with_library SampleHost.udf (PyBytes (encode_utf8 "/lib/total.wasm"))) "AS WASM"
      = OK ("AS WASM" ++ " INFILE '" ++ "/lib/total.wasm" ++ "'")).
Proof.
  apply (@library_bytes_as_text SampleHost.host SampleHost.udf "/lib/total.wasm"
           None (Some "db") "AS WASM").
  unfold is_text. vm_compute. discriminate.
Defined.

(** ** Delimited files: the clauses determine the settings *)

Lemma append_inv_head (a b c : string) : a ++ b = a ++ c -> b = c.
Proof.
  induction a as [| x a IH]; simpl; intros E; [exact E |].
  injection E as E. exact (IH E).
Qed.

(** A clause with a quoted value gives the value back. *)
Lemma quoted_inv (keyword v1 v2 : string) :
  keyword ++ " '" ++ v1 ++ "'" = keyword ++ " '" ++ v2 ++ "'" -> v1 = v2.
Proof.
  intros E. apply append_inv_head in E. apply append_inv_head in E.
  exact (append_inv_tail _ _ _ E).
Qed.

Lemma OK_inv {A : Type} (a b : A) : OK a = OK b -> a = b.
Proof. intros E. injection E as E. exact E. Qed.

Lemma cons_inv {A : Type} (a b : A) (l l' : list A) :
  a :: l = b :: l' -> a = b /\ l = l'.
Proof. intros E. injection E as Ea El. split; assumption. Qed.

Ltac clauses_differ E := simpl in E; discriminate E.

Ltac same_clause E :=
  first [ apply (quoted_inv "FIELDS TERMINATED BY") in E
        | apply (quoted_inv "ESCAPED BY") in E
        | apply (quoted_inv "LINES TERMINATED BY") in E
        | apply (quoted_inv "LOCATION") in E ].

Ltac compare_clauses :=
  repeat match goal with
         | E : OK _ = OK _ |- _ => apply OK_inv in E
         | E : _ :: _ = [] |- _ => discriminate E
         | E : [] = _ :: _ |- _ => discriminate E
         | E : _ :: _ = _ :: _ |- _ =>
             let Hhd := fresh "Hhd" in
             let Htl := fresh "Htl" in
             apply cons_inv in E; destruct E as [Hhd Htl];
             first [ clauses_differ Hhd | same_clause Hhd | idtac ]
         end.

Section DelimitedSettings.

Context `{Host}.

Lemma delimited_collect (self : DelimitedFormat.t) :
  Gen.collect (DelimitedFormat.to_ddl self)
  = OK (List.app ["ROW FORMAT DELIMITED"]
       (List.app (optional_clause "FIELDS TERMINATED BY" (DelimitedFormat.delimiter self))
       (List.app (optional_clause "ESCAPED BY" (DelimitedFormat.escapechar self))
       (List.app (optional_clause "LINES TERMINATED BY" (DelimitedFormat.lineterminator self))
       (List.app ["LOCATION '" ++ DelimitedFormat.path self ++ "'"]
                 (null_format_clause (DelimitedFormat.na_rep self))))))).
Proof.
  destruct self as [path delimiter escapechar na_rep lineterminator].
  unfold DelimitedFormat.to_ddl; simpl.
  destruct delimiter, escapechar, lineterminator, na_rep; reflexivity.
Qed.

(** X9. The clauses of a delimited format determine its settings: two
    formats that yield the same clauses have the same path, delimiter, escape
    character and line terminator, and both or neither have a null
    representation (with the same properties clause). *)
Theorem delimited_to_ddl_injective (d1 d2 : DelimitedFormat.t) :
  Gen.collect (DelimitedFormat.to_ddl d1) = Gen.collect (DelimitedFormat.to_ddl d2) ->
  DelimitedFormat.path d1 = DelimitedFormat.path d2
  /\ DelimitedFormat.delimiter d1 = DelimitedFormat.delimiter d2
  /\ DelimitedFormat.escapechar d1 = DelimitedFormat.escapechar d2
  /\ DelimitedFormat.lineterminator d1 = DelimitedFormat.lineterminator d2
  /\ null_format_clause (DelimitedFormat.na_rep d1)
     = null_format_clause (DelimitedFormat.na_rep d2)
  /\ (DelimitedFormat.na_rep d1 = None <-> DelimitedFormat.na_rep d2 = None).
Proof.
  rewrite !delimited_collect.
  destruct d1 as [path1 delimiter1 escapechar1 na_rep1 lineterminator1].
  destruct d2 as [path2 delimiter2 escapechar2 na_rep2 lineterminator2].
  cbn [DelimitedFormat.path DelimitedFormat.delimiter DelimitedFormat.escapechar
       DelimitedFormat.lineterminator DelimitedFormat.na_rep].
  destruct delimiter1, delimiter2, escapechar1, escapechar2,
    lineterminator1, lineterminator2, na_rep1, na_rep2;
    cbn [optional_clause null_format_clause List.app]; intros E;
    compare_clauses; subst;
    repeat split; try reflexivity; try congruence;
    try (intros Hno; discriminate Hno).
Qed.

(** X10. [CreateTableDelimited] hands each option to the clause of its name:
    the table format it builds yields [ROW FORMAT DELIMITED], the clauses of
    the options that are set, the location of the given path and, when a null
    representation is given, its properties clause: two clauses plus one for
    every option set. *)
Theorem create_table_delimited_clauses (table_name path : string) (schema : Schema)
    (delimiter escapechar lineterminator na_rep : option string) (external : bool)
    (kw : CreateTable.kwargs) :
  let self :=
    CreateTableDelimited.init table_name path schema delimiter escapechar lineterminator
      na_rep external kw in
  let clauses :=
    List.app ["ROW FORMAT DELIMITED"]
      (List.app (optional_clause "FIELDS TERMINATED BY" delimiter)
      (List.app (optional_clause "ESCAPED BY" escapechar)
      (List.app (optional_clause "LINES TERMINATED BY" lineterminator)
      (List.app ["LOCATION '" ++ path ++ "'"] (null_format_clause na_rep))))) in
  Gen.collect (DelimitedFormat.to_ddl (CreateTableDelimited.table_format self)) = OK clauses
  /\ List.length clauses = 2 + options_set (CreateTableDelimited.table_format self)
  /\ CreateTableDelimited.schema self = schema
  /\ CreateTable.external (CreateTableDelimited.base self) = external.
Proof.
  cbv zeta. rewrite delimited_collect.
  destruct delimiter, escapechar, lineterminator, na_rep; repeat split; reflexivity.
Qed.

End DelimitedSettings.

Lemma delimited_to_ddl_injective_witness :
  DelimitedFormat.path (DelimitedFormat.mk "/data/t.csv" (Some ",") None (Some "NULL") None)
  = DelimitedFormat.path (DelimitedFormat.mk "/data/t.csv" (Some ",") None (Some "NULL") None)
  /\ Some "," = Some ","
  /\ @None string = None
  /\ @None string = None
  /\ @null_format_clause SampleHost.host (Some "NULL")
     = @null_format_clause SampleHost.host (Some "NULL")
  /\ (Some "NULL" = None <-> Some "NULL" = None).
Proof.
  apply (@delimited_to_ddl_injective SampleHost.host
           (DelimitedFormat.mk "/data/t.csv" (Some ",") None (Some "NULL") None)
           (DelimitedFormat.mk "/data/t.csv" (Some ",") None (Some "NULL") None)).
  reflexivity.
Defined.

(** ** The order of a schema's keys does not matter *)

Lemma string_compare_le_trans (a b c : string) :
  String.compare a b <> Gt -> String.compare b c <> Gt -> String.compare a c <> Gt.
Proof.
  revert b c. induction a as [| x a IH]; intros [| y b] [| z c]; simpl; try congruence.
  unfold Ascii.compare.
  destruct (N.compare_spec (N_of_ascii x) (N_of_ascii y)) as [Exy | Lxy | Gxy];
    destruct (N.compare_spec (N_of_ascii y) (N_of_ascii z)) as [Eyz | Lyz | Gyz];
    destruct (N.compare_spec (N_of_ascii x) (N_of_ascii z)) as [Exz | Lxz | Gxz];
    intros Hab Hbc; try congruence; try lia.
  exact (IH b c Hab Hbc).
Qed.

Lemma leb_compare (a b : string) : String.leb a b = true <-> String.compare a b <> Gt.
Proof.
  unfold String.leb. destruct (String.compare a b); split; congruence.
Qed.

Lemma string_leb_trans (a b c : string) :
  String.leb a b = true -> String.leb b c = true -> String.leb a c = true.
Proof.
  rewrite !leb_compare. apply string_compare_le_trans.
Qed.

Lemma string_leb_false (a b : string) : String.leb a b = false -> String.leb b a = true.
Proof.
  intros Hab. destruct (String.leb_total a b) as [E | E]; [congruence | exact E].
Qed.

(** Two items with different keys go into a list in either order. *)
Lemma insert_item_comm (a b : string * string) (l : list (string * string)) :
  fst a <> fst b ->
  Json.insert_item a (Json.insert_item b l) = Json.insert_item b (Json.insert_item a l).
Proof.
  intros Hne.
  assert (Hanti : String.leb (fst a) (fst b) = true -> String.leb (fst b) (fst a) = true ->
                  False).
  { intros Hab Hba. apply Hne. apply String.leb_antisym; assumption. }
  induction l as [| c l IH]; simpl.
  - destruct (String.leb (fst a) (fst b)) eqn:Hab, (String.leb (fst b) (fst a)) eqn:Hba;
      try reflexivity.
    + exfalso. exact (Hanti eq_refl eq_refl).
    + apply string_leb_false in Hab. congruence.
  - destruct (String.leb (fst b) (fst c)) eqn:Hbc, (String.leb (fst a) (fst c)) eqn:Hac;
      simpl;
      destruct (String.leb (fst a) (fst b)) eqn:Hab, (String.leb (fst b) (fst a)) eqn:Hba;
      rewrite ?Hbc, ?Hac; try reflexivity;
      try (exfalso; exact (Hanti eq_refl eq_refl));
      try (apply string_leb_false in Hab; congruence);
      try (rewrite IH; reflexivity).
    + pose proof (string_leb_trans _ _ _ Hab Hbc). congruence.
    + pose proof (string_leb_trans _ _ _ Hba Hac). congruence.
Qed.

Lemma sort_items_permuted (l l' : list (string * string)) :
  Permutation l l' -> NoDup (map fst l) -> Json.sort_items l = Json.sort_items l'.
Proof.
  induction 1 as [| x l l' Hperm IH | x y l | l l' l'' Hperm1 IH1 Hperm2 IH2];
    intros Hkeys; simpl.
  - reflexivity.
  - inversion Hkeys; subst. rewrite IH by assumption. reflexivity.
  - apply insert_item_comm.
    simpl in Hkeys. inversion Hkeys as [| k ks Hin _]; subst.
    intros E. apply Hin. left. symmetry. exact E.
  - rewrite IH1 by assumption. apply IH2.
    apply (Permutation_NoDup (Permutation_map fst Hperm1)). exact Hkeys.
Qed.

Lemma encode_dict (item : string * Json.value) (items : list (string * Json.value))
    (level : nat) :
  Json.encode 2 true level (Json.JDict (item :: items))
  = "{" ++ Json.newline_indent 2 (S level)
        ++ join ("," ++ Json.newline_indent 2 (S level))
             (map item_text
                (Json.sort_items
                   (map (fun kv => (fst kv, Json.encode 2 true (S level) (snd kv)))
                      (item :: items))))
        ++ Json.newline_indent 2 level ++ "}".
Proof. reflexivity. Qed.

Lemma encode_dict_permuted (items items' : list (string * Json.value)) (level : nat) :
  Permutation items items' ->
  NoDup (map fst items) ->
  Json.encode 2 true level (Json.JDict items) = Json.encode 2 true level (Json.JDict items').
Proof.
  intros Hperm Hkeys.
  destruct items as [| item items].
  - apply Permutation_nil in Hperm. subst. reflexivity.
  - destruct items' as [| item' items'].
    + apply Permutation_sym, Permutation_nil in Hperm. discriminate Hperm.
    + rewrite !encode_dict.
      rewrite (sort_items_permuted
                 (map (fun kv => (fst kv, Json.encode 2 true (S level) (snd kv)))
                    (item :: items))
                 (map (fun kv => (fst kv, Json.encode 2 true (S level) (snd kv)))
                    (item' :: items'))).
      * reflexivity.
      * apply Permutation_map. exact Hperm.
      * rewrite map_map. exact Hkeys.
Qed.

Section KeyOrder.

Context `{Host}.

(** X11. The order in which the keys of an Avro schema were inserted does not
    show: two schemas whose top-level items are the same up to their order
    (the keys distinct, as in a dictionary) yield the same clauses. *)
Theorem avro_key_order_irrelevant (path : string) (items items' : list (string * Json.value)) :
  Permutation items items' ->
  NoDup (map fst items) ->
  schema_literal (Json.JDict items) = schema_literal (Json.JDict items')
  /\ Gen.collect (AvroFormat.to_ddl (AvroFormat.mk path (Json.JDict items)))
     = Gen.collect (AvroFormat.to_ddl (AvroFormat.mk path (Json.JDict items'))).
Proof.
  intros Hperm Hkeys.
  assert (Hlit : schema_literal (Json.JDict items) = schema_literal (Json.JDict items')).
  { unfold schema_literal, Json.dumps.
    rewrite (encode_dict_permuted items items' 0 Hperm Hkeys). reflexivity. }
  split; [exact Hlit |].
  unfold AvroFormat.to_ddl. cbn [AvroFormat.path AvroFormat.avro_schema].
  fold (schema_literal (Json.JDict items)). fold (schema_literal (Json.JDict items')).
  rewrite Hlit. reflexivity.
Qed.

End KeyOrder.

Lemma avro_key_order_irrelevant_witness :
  schema_literal (Json.JDict [("type", Json.JStr "record"); ("name", Json.JStr "row")])
  = schema_literal (Json.JDict [("name", Json.JStr "row"); ("type", Json.JStr "record")])
  /\ Gen.collect
       (@AvroFormat.to_ddl SampleHost.host
          (AvroFormat.mk "/data/t.avro"
             (Json.JDict [("type", Json.JStr "record"); ("name", Json.JStr "row")])))
     = Gen.collect
         (@AvroFormat.to_ddl SampleHost.host
            (AvroFormat.mk "/data/t.avro"
               (Json.JDict [("name", Json.JStr "row"); ("type", Json.JStr "record")]))).
Proof.
  apply (@avro_key_order_irrelevant SampleHost.host "/data/t.avro"
           [("type", Json.JStr "record"); ("name", Json.JStr "row")]
           [("name", Json.JStr "row"); ("type", Json.JStr "record")]).
  - apply perm_swap.
  - simpl. constructor.
    + simpl. intros [E | []]. discriminate E.
    + constructor; [intros [] | constructor].
Defined.

(** ** The stripping of the schema literal changes nothing *)

Lemma octets_app (a b : string) : Text.octets (a ++ b) = List.app (Text.octets a) (Text.octets b).
Proof.
  unfold Text.octets. rewrite list_of_append, map_app. reflexivity.
Qed.

Lemma of_octets_octets (s : string) : Text.of_octets (Text.octets s) = s.
Proof.
  unfold Text.of_octets, Text.octets. rewrite map_map.
  rewrite (map_ext _ (fun c => c)) by apply ascii_N_embedding.
  rewrite map_id. apply string_of_list_ascii_of_string.
Qed.

Lemma octets_of_octets (cs : list N) :
  Forall (fun c => (c < 256)%N) cs -> Text.octets (Text.of_octets cs) = cs.
Proof.
  intros Hcs. unfold Text.of_octets, Text.octets.
  rewrite list_ascii_of_string_of_list_ascii, map_map.
  induction Hcs as [| c cs Hc _ IH]; simpl; [reflexivity |].
  rewrite N_ascii_embedding by exact Hc. rewrite IH. reflexivity.
Qed.

Lemma of_octets_app (a b : list N) :
  Text.of_octets (List.app a b) = Text.of_octets a ++ Text.of_octets b.
Proof.
  unfold Text.of_octets. rewrite map_app.
  induction (map ascii_of_N a) as [| x l IH]; simpl; [reflexivity | rewrite IH; reflexivity].
Qed.

Lemma flows_app (a b : list N) (next : option N) :
  flows (List.app a b) next
  = flows a (match b with d :: _ => Some d | [] => next end) && flows b next.
Proof.
  induction a as [| c a IH]; simpl.
  - reflexivity.
  - rewrite IH. destruct a as [| d a]; simpl.
    + destruct b; rewrite <- !andb_assoc; reflexivity.
    + rewrite <- !andb_assoc. reflexivity.
Qed.

Lemma printable_bounds (c : N) : printable c = true <-> (0x20 <= c <= 0x7E)%N.
Proof.
  unfold printable, Text.between. rewrite andb_true_iff, !N.leb_le. reflexivity.
Qed.

(** Printable text flows when what follows is not a line feed. *)
Lemma flows_printable (cs : list N) (d : N) :
  Forall (fun c => printable c = true) cs -> N.eqb d 10 = false ->
  flows cs (Some d) = true.
Proof.
  intros Hcs Hd. induction Hcs as [| c cs Hc Hrest IH]; simpl; [reflexivity |].
  rewrite Hc, IH, orb_true_r. simpl. rewrite andb_true_r.
  assert (Hc10 : N.eqb c 10 = false).
  { apply N.eqb_neq. apply printable_bounds in Hc. lia. }
  unfold well_followed. rewrite Hc10.
  destruct (N.eqb c 32); [| reflexivity].
  destruct Hrest as [| c' cs' Hc' _]; [rewrite Hd; reflexivity |].
  assert (Hc'10 : N.eqb c' 10 = false).
  { apply N.eqb_neq. apply printable_bounds in Hc'. lia. }
  rewrite Hc'10. reflexivity.
Qed.

(** Text that flows is printable ASCII and line feeds. *)
Lemma flows_ascii (cs : list N) (next : option N) :
  flows cs next = true -> Forall (fun c => (c < 0x80)%N) cs.
Proof.
  induction cs as [| c cs IH]; simpl; intros Hf; constructor.
  - apply andb_prop in Hf. destruct Hf as [Hf _].
    apply andb_prop in Hf. destruct Hf as [Hc _].
    apply orb_prop in Hc. destruct Hc as [Hc | Hc].
    + apply N.eqb_eq in Hc. lia.
    + apply printable_bounds in Hc. lia.
  - apply IH. apply andb_prop in Hf. apply Hf.
Qed.

Lemma chr_ascii (c : N) : (c < 0x80)%N -> Text.chr c = Text.of_octets [c].
Proof.
  intros Hc. unfold Text.chr, Text.utf8_encode1.
  apply N.ltb_lt in Hc. rewrite Hc. reflexivity.
Qed.

Lemma text_ascii (cs : list N) :
  Forall (fun c => (c < 0x80)%N) cs -> Lines.text cs = Text.of_octets cs.
Proof.
  unfold Lines.text.
  induction 1 as [| c cs Hc Hcs IH]; [reflexivity |].
  simpl map. rewrite (chr_ascii c Hc).
  destruct cs as [| d cs]; [reflexivity |].
  change (String.concat "" (Text.of_octets [c] :: map Text.chr (d :: cs)))
    with (Text.of_octets [c] ++ "" ++ String.concat "" (map Text.chr (d :: cs))).
  rewrite IH. reflexivity.
Qed.

Lemma codepoints_ascii (s : string) :
  Forall (fun c => (c < 0x80)%N) (Text.octets s) -> Text.codepoints s = Text.octets s.
Proof.
  intros Hs. unfold Text.codepoints. rewrite utf8_decode_ascii by exact Hs. reflexivity.
Qed.

Lemma printable_ascii (cs : list N) :
  Forall (fun c => printable c = true) cs -> Forall (fun c => (c < 0x80)%N) cs.
Proof.
  apply Forall_impl. intros c Hc. apply printable_bounds in Hc. lia.
Qed.

Lemma is_space_printable (c : N) :
  printable c = true -> c <> 32%N -> Lines.is_space c = false.
Proof.
  intros Hc Hne. apply printable_bounds in Hc.
  unfold Lines.is_space, Text.between.
  assert (H1 : (c <=? 0x0D)%N = false) by (apply N.leb_gt; lia).
  assert (H2 : (c <=? 0x20)%N = false) by (apply N.leb_gt; lia).
  assert (H3 : (c =? 0x85)%N = false) by (apply N.eqb_neq; lia).
  assert (H4 : (c =? 0xA0)%N = false) by (apply N.eqb_neq; lia).
  assert (H5 : (c =? 0x1680)%N = false) by (apply N.eqb_neq; lia).
  assert (H6 : (0x2000 <=? c)%N = false) by (apply N.leb_gt; lia).
  assert (H7 : (c =? 0x2028)%N = false) by (apply N.eqb_neq; lia).
  assert (H8 : (c =? 0x2029)%N = false) by (apply N.eqb_neq; lia).
  assert (H9 : (c =? 0x202F)%N = false) by (apply N.eqb_neq; lia).
  assert (H10 : (c =? 0x205F)%N = false) by (apply N.eqb_neq; lia).
  assert (H11 : (c =? 0x3000)%N = false) by (apply N.eqb_neq; lia).
  rewrite H1, H2, H3, H4, H5, H6, H7, H8, H9, H10, H11.
  rewrite !andb_false_r. reflexivity.
Qed.

Lemma is_linebreak_printable (c : N) : printable c = true -> Lines.is_linebreak c = false.
Proof.
  intros Hc. apply printable_bounds in Hc.
  unfold Lines.is_linebreak, Text.between.
  assert (H1 : (c <=? 0x0D)%N = false) by (apply N.leb_gt; lia).
  assert (H2 : (c <=? 0x1E)%N = false) by (apply N.leb_gt; lia).
  assert (H3 : (c =? 0x85)%N = false) by (apply N.eqb_neq; lia).
  assert (H4 : (c =? 0x2028)%N = false) by (apply N.eqb_neq; lia).
  assert (H5 : (c =? 0x2029)%N = false) by (apply N.eqb_neq; lia).
  rewrite H1, H2, H3, H4, H5. rewrite !andb_false_r. reflexivity.
Qed.

(** [rstrip] keeps a printable line that does not end in a space. *)
Lemma rstrip_line (line : list N) :
  Forall (fun c => printable c = true) line ->
  match rev line with [] => True | c :: _ => c <> 32%N end ->
  Lines.rstrip (Text.of_octets line) = Text.of_octets line.
Proof.
  intros Hline Hlast.
  pose proof (printable_ascii line Hline) as Hascii.
  unfold Lines.rstrip.
  rewrite codepoints_ascii;
    rewrite octets_of_octets by (eapply Forall_impl; [| exact Hascii]; simpl; intros; lia);
    [| exact Hascii].
  assert (Hdrop : Lines.drop_spaces (rev line) = rev line).
  { assert (Hrev : Forall (fun c => printable c = true) (rev line))
      by (apply Forall_rev; exact Hline).
    destruct (rev line) as [| c r]; [reflexivity |].
    simpl. inversion Hrev; subst.
    rewrite is_space_printable by assumption. reflexivity. }
  rewrite Hdrop, rev_involutive. apply text_ascii. exact Hascii.
Qed.

Lemma split_nonempty (cs cur : list N) :
  cs <> [] \/ cur <> [] -> Lines.split cur cs <> [].
Proof.
  revert cur. induction cs as [| c rest IH]; intros cur Hne; simpl.
  - destruct cur; [destruct Hne as [Hne | Hne]; contradiction | discriminate].
  - destruct (Lines.is_linebreak c).
    + destruct rest as [| c' rest']; [discriminate |].
      destruct ((c =? 13)%N && (c' =? 10)%N); discriminate.
    + apply IH. right. discriminate.
Qed.

Lemma flows_last (cs : list N) (c : N) (next : option N) :
  flows (List.app cs [c]) next = true -> well_followed c next = true.
Proof.
  rewrite flows_app. intros Hf. apply andb_prop in Hf. destruct Hf as [_ Hf].
  simpl in Hf. rewrite andb_true_r in Hf. apply andb_prop in Hf. apply Hf.
Qed.

Lemma end_not_space (cur : list N) (next : option N) :
  (next = None \/ next = Some 10%N) ->
  flows (rev cur) next = true ->
  match rev (rev cur) with [] => True | c :: _ => c <> 32%N end.
Proof.
  intros Hnext Hf. rewrite rev_involutive.
  destruct cur as [| c cur]; [exact I |].
  simpl in Hf. apply flows_last in Hf.
  intros ->. unfold well_followed in Hf. simpl in Hf.
  destruct Hnext as [-> | ->]; discriminate Hf.
Qed.

(** Splitting a text that flows into lines, stripping each line and joining
    the lines again gives the text back. *)
Lemma split_strip_join (cs cur : list N) :
  Forall (fun c => printable c = true) cur ->
  flows (List.app (rev cur) cs) None = true ->
  join LF (map Lines.rstrip (map Lines.text (Lines.split cur cs)))
  = Text.of_octets (List.app (rev cur) cs).
Proof.
  revert cur. induction cs as [| c rest IH]; intros cur Hcur Hf.
  - rewrite app_nil_r in *. simpl.
    destruct cur as [| c cur]; [reflexivity |].
    assert (Hrev : Forall (fun c => printable c = true) (rev (c :: cur)))
      by (apply Forall_rev; exact Hcur).
    cbn [map join].
    rewrite text_ascii by (apply printable_ascii; exact Hrev).
    apply rstrip_line; [exact Hrev |].
    apply (end_not_space (c :: cur) None); [left; reflexivity | exact Hf].
  - pose proof Hf as Hparts. rewrite flows_app in Hparts.
    apply andb_prop in Hparts. destruct Hparts as [Hhead Htail].
    simpl in Htail.
    apply andb_prop in Htail. destruct Htail as [Hc Hrest].
    apply andb_prop in Hc. destruct Hc as [Hc Hfollow].
    destruct (N.eqb_spec c 10) as [-> | Hne].
    + assert (Hsplit : Lines.split cur (10%N :: rest) = rev cur :: Lines.split [] rest).
      { simpl. destruct rest; reflexivity. }
      rewrite Hsplit.
      assert (Hrest_ne : rest <> []).
      { intros ->. discriminate Hfollow. }
      pose proof (split_nonempty rest [] (or_introl Hrest_ne)) as Hlines.
      assert (Hrev : Forall (fun c => printable c = true) (rev cur))
        by (apply Forall_rev; exact Hcur).
      cbn [map].
      destruct (Lines.split [] rest) as [| l ls] eqn:Hsp; [contradiction |].
      change (join LF (Lines.rstrip (Lines.text (rev cur))
                         :: map Lines.rstrip (map Lines.text (l :: ls))))
        with (Lines.rstrip (Lines.text (rev cur)) ++ LF
                ++ join LF (map Lines.rstrip (map Lines.text (l :: ls)))).
      rewrite <- Hsp, (IH [] (Forall_nil _) Hrest).
      change (List.app (rev []) rest) with rest.
      rewrite text_ascii by (apply printable_ascii; exact Hrev).
      rewrite rstrip_line;
        [| exact Hrev | apply (end_not_space cur (Some 10%N)); [right; reflexivity | exact Hhead]].
      rewrite of_octets_app. reflexivity.
    + simpl in Hc.
      assert (Hsplit : Lines.split cur (c :: rest) = Lines.split (c :: cur) rest).
      { simpl. rewrite is_linebreak_printable by exact Hc. reflexivity. }
      rewrite Hsplit.
      assert (Hsame : List.app (rev (c :: cur)) rest = List.app (rev cur) (c :: rest)).
      { simpl. rewrite <- app_assoc. reflexivity. }
      rewrite <- Hsame. apply IH.
      * constructor; assumption.
      * rewrite Hsame. exact Hf.
Qed.

Lemma lines_identity (s : string) :
  flows (Text.octets s) None = true ->
  join LF (map Lines.rstrip (Lines.splitlines s)) = s.
Proof.
  intros Hf. unfold Lines.splitlines.
  rewrite codepoints_ascii by (exact (flows_ascii _ _ Hf)).
  rewrite (split_strip_join (Text.octets s) [] (Forall_nil _) Hf).
  apply of_octets_octets.
Qed.

(** Induction on a JSON value, with the hypothesis for every element of a
    list and every value of a dictionary. *)
Section ValueInduction.

Variable P : Json.value -> Prop.

Hypothesis HNone : P Json.JNone.
Hypothesis HBool : forall b, P (Json.JBool b).
Hypothesis HInt : forall z, P (Json.JInt z).
Hypothesis HStr : forall s, P (Json.JStr s).
Hypothesis HList : forall xs, Forall P xs -> P (Json.JList xs).
Hypothesis HDict : forall items, Forall (fun kv => P (snd kv)) items -> P (Json.JDict items).

Fixpoint value_induction (o : Json.value) : P o :=
  match o with
  | Json.JNone => HNone
  | Json.JBool b => HBool b
  | Json.JInt z => HInt z
  | Json.JStr s => HStr s
  | Json.JList xs =>
      HList xs
        ((fix all (l : list Json.value) : Forall P l :=
            match l with
            | [] => Forall_nil P
            | x :: rest => Forall_cons x (value_induction x) (all rest)
            end) xs)
  | Json.JDict items =>
      HDict items
        ((fix all (l : list (string * Json.value)) : Forall (fun kv => P (snd kv)) l :=
            match l with
            | [] => Forall_nil _
            | kv :: rest =>
                Forall_cons (P := fun kv => P (snd kv)) kv (value_induction (snd kv)) (all rest)
            end) items)
  end.

End ValueInduction.

Lemma dense_facts (c : N) :
  dense c = true -> printable c = true /\ N.eqb c 32 = false /\ N.eqb c 10 = false.
Proof.
  unfold dense. intros Hc. apply andb_prop in Hc. destruct Hc as [Hp Hs].
  apply negb_true_iff in Hs. split; [exact Hp | split; [exact Hs |]].
  apply N.eqb_neq. apply printable_bounds in Hp. lia.
Qed.

(** Text without spaces or line feeds flows whatever follows. *)
Lemma flows_dense (cs : list N) (next : option N) :
  Forall (fun c => dense c = true) cs -> flows cs next = true.
Proof.
  induction 1 as [| c cs Hc _ IH]; simpl; [reflexivity |].
  destruct (dense_facts c Hc) as [Hp [Hs Hl]].
  unfold well_followed. rewrite Hp, Hs, Hl, IH, orb_true_r. reflexivity.
Qed.

Lemma solid_dense (s : string) (c : N) (rest : list N) :
  Text.octets s = c :: rest ->
  Forall (fun c => dense c = true) (Text.octets s) ->
  solid s.
Proof.
  intros Hs Hall. split.
  - exists c, rest. split; [exact Hs |].
    rewrite Hs in Hall. inversion Hall; subst.
    apply dense_facts. assumption.
  - intros next. apply flows_dense. exact Hall.
Qed.

Lemma digits_dense (d : Decimal.uint) :
  Forall (fun c => dense c = true) (Text.octets (NilEmpty.string_of_uint d)).
Proof.
  induction d; simpl; constructor; try reflexivity; assumption.
Qed.

Lemma encode_int_solid (z : Z) : solid (Json.encode_int z).
Proof.
  unfold Json.encode_int.
  assert (Huint : forall d, exists c rest,
             Text.octets (NilZero.string_of_uint d) = c :: rest
             /\ Forall (fun c => dense c = true) (Text.octets (NilZero.string_of_uint d))).
  { intros d. pose proof (digits_dense d) as Hd.
    destruct d; simpl in *;
      try (eexists; eexists; split; [reflexivity | exact Hd]).
    eexists; eexists; split; [reflexivity | repeat constructor]. }
  destruct (Z.to_int z) as [d | d]; simpl.
  - destruct (Huint d) as [c [rest [Hs Hall]]]. exact (solid_dense _ c rest Hs Hall).
  - destruct (Huint d) as [c [rest [Hs Hall]]].
    apply (solid_dense _ 45%N (Text.octets (NilZero.string_of_uint d))); [reflexivity |].
    constructor; [reflexivity | exact Hall].
Qed.

Lemma hexdigit_printable (d : N) : printable (N_of_ascii (Text.hexdigit d)) = true.
Proof.
  unfold Text.hexdigit.
  remember (N.to_nat d) as k eqn:Hk. clear Hk d.
  do 16 (destruct k as [| k]; [reflexivity |]).
  rewrite get_beyond; [reflexivity | simpl; lia].
Qed.

Lemma hex_printable (width : nat) (n : N) :
  Forall (fun c => printable c = true) (Text.octets (Text.hex width n)).
Proof.
  revert n. induction width as [| w IH]; intros n; simpl.
  - constructor.
  - rewrite octets_app. apply Forall_app. split; [apply IH |].
    constructor; [apply hexdigit_printable | constructor].
Qed.

Lemma escape_printable (ch : N) :
  Forall (fun c => printable c = true) (Text.octets (Json.escape ch)).
Proof.
  unfold Json.escape.
  repeat match goal with
         | |- context [if (ch =? ?k)%N then _ else _] =>
             destruct (ch =? k)%N; [repeat constructor |]
         end.
  destruct (Text.between 32 ch 126) eqn:Hp.
  - assert (Hlt : (ch < 0x80)%N) by (apply printable_bounds in Hp; lia).
    rewrite (chr_ascii ch Hlt).
    rewrite octets_of_octets by (repeat constructor; lia).
    constructor; [exact Hp | constructor].
  - destruct (ch <? 65536)%N.
    + rewrite octets_app. apply Forall_app. split; [repeat constructor | apply hex_printable].
    + rewrite !octets_app. repeat (apply Forall_app; split);
        try apply hex_printable; repeat constructor.
Qed.

Lemma concat_printable (ls : list string) :
  Forall (fun s => Forall (fun c => printable c = true) (Text.octets s)) ls ->
  Forall (fun c => printable c = true) (Text.octets (String.concat "" ls)).
Proof.
  induction 1 as [| s ls Hs Hls IH]; [constructor |].
  destruct ls as [| s' ls]; [exact Hs |].
  change (String.concat "" (s :: s' :: ls)) with (s ++ "" ++ String.concat "" (s' :: ls)).
  rewrite octets_app. apply Forall_app. split; [exact Hs | exact IH].
Qed.

Lemma encode_str_solid (s : string) : solid (Json.encode_str s).
Proof.
  unfold Json.encode_str.
  set (body := String.concat "" (map Json.escape (Text.codepoints s))).
  assert (Hbody : Forall (fun c => printable c = true) (Text.octets body)).
  { apply concat_printable. apply Forall_forall. intros e He.
    apply in_map_iff in He. destruct He as [ch [<- _]]. apply escape_printable. }
  assert (Hoct : Text.octets (DQ ++ body ++ DQ)
                 = 34%N :: List.app (Text.octets body) [34%N]).
  { rewrite !octets_app. reflexivity. }
  split.
  - exists 34%N, (List.app (Text.octets body) [34%N]). split; [exact Hoct | reflexivity].
  - intros next. rewrite Hoct.
    change (flows (34%N :: List.app (Text.octets body) [34%N]) next)
      with (flows (List.app (Text.octets body) [34%N]) next).
    rewrite flows_app. rewrite flows_printable by (exact Hbody || reflexivity).
    reflexivity.
Qed.

Lemma spaces_octets (n : nat) : Text.octets (Json.spaces n) = repeat 32%N n.
Proof.
  induction n as [| n IH]; [reflexivity |].
  change (Json.spaces (S n)) with (" " ++ Json.spaces n).
  rewrite octets_app, IH. reflexivity.
Qed.

Lemma spaces_flow (n : nat) (h : N) :
  N.eqb h 10 = false -> flows (repeat 32%N n) (Some h) = true.
Proof.
  intros Hh. induction n as [| n IH]; [reflexivity |].
  change (flows (32%N :: repeat 32%N n) (Some h) = true).
  cbn [flows]. rewrite IH.
  destruct n; cbn [repeat].
  - change (well_followed 32 (Some h)) with (negb (N.eqb h 10)).
    rewrite Hh. reflexivity.
  - reflexivity.
Qed.

(** A line feed and its indentation flow into anything but a line feed. *)
Lemma newline_flows (level : nat) (h : N) :
  N.eqb h 10 = false ->
  flows (Text.octets (Json.newline_indent 2 level)) (Some h) = true.
Proof.
  intros Hh. unfold Json.newline_indent.
  rewrite octets_app, spaces_octets.
  change (Text.octets LF) with [10%N].
  rewrite flows_app, (spaces_flow _ h Hh).
  destruct (repeat 32%N (2 * level)); reflexivity.
Qed.

(** Two solid texts stay solid around a text that flows into any character
    but a line feed. *)
Lemma solid_around (a m b : string) :
  solid a ->
  (forall h, N.eqb h 10 = false -> flows (Text.octets m) (Some h) = true) ->
  solid b ->
  solid (a ++ m ++ b).
Proof.
  intros [[ca [ra [Ha Hca]]] Hfa] Hm [[cb [rb [Hb Hcb]]] Hfb].
  split.
  - exists ca, (List.app ra (Text.octets (m ++ b))).
    rewrite octets_app, Ha. split; [reflexivity | exact Hca].
  - intros next. rewrite !octets_app, !flows_app.
    rewrite Hfa, Hfb, Hb, (Hm cb Hcb). reflexivity.
Qed.

Lemma solid_literal (s : string) (c : N) (rest : list N) :
  Text.octets s = c :: rest ->
  forallb dense (Text.octets s) = true ->
  solid s.
Proof.
  intros Hs Hall. apply (solid_dense s c rest Hs).
  apply Forall_forall. rewrite forallb_forall in Hall. exact Hall.
Qed.

Lemma separator_flows (level : nat) (h : N) :
  N.eqb h 10 = false ->
  flows (Text.octets ("," ++ Json.newline_indent 2 level)) (Some h) = true.
Proof.
  intros Hh. rewrite octets_app.
  change (Text.octets ",") with [44%N].
  rewrite flows_app, (newline_flows level h Hh).
  destruct (Text.octets (Json.newline_indent 2 level)); reflexivity.
Qed.

Lemma solid_join (level : nat) (item : string) (items : list string) :
  Forall solid (item :: items) ->
  solid (join ("," ++ Json.newline_indent 2 level) (item :: items)).
Proof.
  revert item. induction items as [| item' items IH]; intros item Hall.
  - inversion Hall; subst. assumption.
  - inversion Hall as [| ? ? Hitem Hrest]; subst.
    change (join ("," ++ Json.newline_indent 2 level) (item :: item' :: items))
      with (item ++ ("," ++ Json.newline_indent 2 level)
              ++ join ("," ++ Json.newline_indent 2 level) (item' :: items)).
    apply solid_around; [exact Hitem | apply separator_flows | apply IH; exact Hrest].
Qed.

(** One or more solid items between brackets, one item per line. *)
Lemma solid_block (opening closing : string) (level : nat) (item : string)
    (items : list string) (co cc : N) :
  Text.octets opening = [co] -> dense co = true ->
  Text.octets closing = [cc] -> dense cc = true ->
  Forall solid (item :: items) ->
  solid (opening ++ Json.newline_indent 2 (S level)
           ++ join ("," ++ Json.newline_indent 2 (S level)) (item :: items)
           ++ Json.newline_indent 2 level ++ closing).
Proof.
  intros Ho Hco Hc Hcc Hall.
  assert (Hopen : solid opening).
  { apply (solid_dense opening co []); [exact Ho |]. rewrite Ho. repeat constructor. exact Hco. }
  assert (Hclose : solid closing).
  { apply (solid_dense closing cc []); [exact Hc |]. rewrite Hc. repeat constructor. exact Hcc. }
  apply solid_around; [exact Hopen | apply newline_flows |].
  apply solid_around; [apply solid_join; exact Hall | apply newline_flows | exact Hclose].
Qed.

Lemma item_text_solid (key value : string) : solid value -> solid (item_text (key, value)).
Proof.
  intros Hvalue.
  change (item_text (key, value)) with (Json.encode_str key ++ ": " ++ value).
  apply solid_around; [apply encode_str_solid | | exact Hvalue].
  intros h Hh.
  change (flows (Text.octets ": ") (Some h)) with (negb (N.eqb h 10) && true).
  rewrite Hh. reflexivity.
Qed.

Lemma encode_list (x : Json.value) (xs : list Json.value) (level : nat) :
  Json.encode 2 true level (Json.JList (x :: xs))
  = "[" ++ Json.newline_indent 2 (S level)
        ++ join ("," ++ Json.newline_indent 2 (S level))
             (map (Json.encode 2 true (S level)) (x :: xs))
        ++ Json.newline_indent 2 level ++ "]".
Proof. reflexivity. Qed.

(** The JSON text of any value is solid, at any indentation level. *)
Lemma encode_solid (o : Json.value) : forall level, solid (Json.encode 2 true level o).
Proof.
  induction o as [| b | z | s | xs IH | items IH] using value_induction; intros level.
  - apply (solid_literal "null" 110%N [117; 108; 108]%N); reflexivity.
  - destruct b.
    + apply (solid_literal "true" 116%N [114; 117; 101]%N); reflexivity.
    + apply (solid_literal "false" 102%N [97; 108; 115; 101]%N); reflexivity.
  - apply encode_int_solid.
  - apply encode_str_solid.
  - destruct xs as [| x xs].
    + apply (solid_literal "[]" 91%N [93%N]); reflexivity.
    + rewrite encode_list.
      assert (Hall : Forall solid (map (Json.encode 2 true (S level)) (x :: xs))).
      { apply Forall_forall. intros e He.
        apply in_map_iff in He. destruct He as [v [<- Hv]].
        rewrite Forall_forall in IH. apply IH. exact Hv. }
      apply (solid_block "[" "]" level _ _ 91%N 93%N); try reflexivity.
      exact Hall.
  - destruct items as [| item items].
    + apply (solid_literal "{}" 123%N [125%N]); reflexivity.
    + rewrite encode_dict.
      set (encoded := map (fun kv => (fst kv, Json.encode 2 true (S level) (snd kv)))
                        (item :: items)).
      assert (Hencoded : Forall (fun kv => solid (item_text kv)) encoded).
      { unfold encoded. apply Forall_forall. intros e He.
        apply in_map_iff in He. destruct He as [kv [<- Hkv]].
        rewrite Forall_forall in IH.
        apply (item_text_solid (fst kv)). apply (IH kv Hkv). }
      assert (Hsorted : Forall (fun kv => solid (item_text kv)) (Json.sort_items encoded)).
      { eapply Permutation_Forall; [| exact Hencoded].
        apply Permutation_sym, sort_items_perm. }
      destruct (Json.sort_items encoded) as [| kv kvs] eqn:Hsort.
      * exfalso.
        pose proof (Permutation_length (sort_items_perm encoded)) as Hlen.
        rewrite Hsort in Hlen. discriminate Hlen.
      * assert (Hall : Forall solid (map item_text (kv :: kvs))).
        { apply Forall_forall. intros e He.
          apply in_map_iff in He. destruct He as [kv' [<- Hkv']].
          rewrite Forall_forall in Hsorted. apply Hsorted. exact Hkv'. }
        apply (solid_block "{" "}" level _ _ 123%N 125%N); try reflexivity.
        exact Hall.
Qed.

Section StripUnchanged.

Context `{Host}.

(** X12. The stripping step of [AvroFormat.to_ddl] changes nothing: the JSON
    text of any schema, written with indentation 2 and sorted keys, has no
    line that ends in whitespace, so the value under ['avro.schema.literal']
    is that text itself; and the text is printable ASCII and line feeds
    only, whatever characters the schema holds. *)
Theorem avro_literal_is_dumps (self : AvroFormat.t) :
  schema_literal (AvroFormat.avro_schema self) = Json.dumps 2 true (AvroFormat.avro_schema self)
  /\ Gen.collect (AvroFormat.to_ddl self)
     = OK ["STORED AS AVRO";
           "LOCATION '" ++ AvroFormat.path self ++ "'";
           format_tblproperties
             [("avro.schema.literal", Json.dumps 2 true (AvroFormat.avro_schema self))]]
  /\ Forall (fun c => c = 10%N \/ (0x20 <= c <= 0x7E)%N)
       (Text.octets (Json.dumps 2 true (AvroFormat.avro_schema self))).
Proof.
  destruct (encode_solid (AvroFormat.avro_schema self) 0) as [_ Hflows].
  assert (Hlit : schema_literal (AvroFormat.avro_schema self)
                 = Json.dumps 2 true (AvroFormat.avro_schema self)).
  { unfold schema_literal. apply lines_identity. apply Hflows. }
  split; [exact Hlit | split].
  - unfold AvroFormat.to_ddl.
    fold (schema_literal (AvroFormat.avro_schema self)). rewrite Hlit. reflexivity.
  - specialize (Hflows None). unfold Json.dumps.
    induction (Text.octets (Json.encode 2 true 0 (AvroFormat.avro_schema self)))
      as [| c cs IH]; [constructor |].
    simpl in Hflows.
    apply andb_prop in Hflows. destruct Hflows as [Hc Hrest].
    apply andb_prop in Hc. destruct Hc as [Hc _].
    constructor.
    + apply orb_prop in Hc. destruct Hc as [Hc | Hc].
      * left. apply N.eqb_eq. exact Hc.
      * right. apply printable_bounds. exact Hc.
    + apply IH. exact Hrest.
Qed.

End StripUnchanged.

(** ** Load data and list functions: the optional parts *)

Section OptionalParts.

Context `{Host}.

(** X13. The partition of a [LoadData] only adds a last line. The statement
    without partition always compiles. Without a partition the statement is
    that text and the partition schema is not read; with a partition it is
    that text followed by a line feed and the host's partition clause, and it
    raises what [format_partition] raises, as for a partition schema left at
    [None]. *)
Theorem load_data_partition_suffix (self : LoadData.t) :
  (exists base,
      LoadData.compile (without_partition self) = OK base
      /\ match LoadData.partition self with
         | Some p =>
             LoadData.compile self
             = let* clause := format_partition p (LoadData.partition_schema self) in
               OK (base ++ LF ++ clause)
         | None => LoadData.compile self = OK base
         end)
  /\ (LoadData.partition self = None ->
      forall partition_schema,
        LoadData.compile self
        = LoadData.compile
            (LoadData.mk (LoadData.table_name self) (LoadData.path self)
               (LoadData.database self) None partition_schema (LoadData.overwrite self))).
Proof.
  destruct self as [table_name path database partition partition_schema overwrite].
  unfold LoadData.compile, without_partition.
  cbn [LoadData.table_name LoadData.path LoadData.database LoadData.partition
       LoadData.partition_schema LoadData.overwrite].
  cbv zeta. split.
  - eexists. split; [reflexivity |].
    destruct partition as [p |]; [| reflexivity].
    destruct (format_partition p partition_schema) as [clause | e]; cbn [bind];
      [| reflexivity].
    rewrite !append_assoc. reflexivity.
  - intros -> schema'. reflexivity.
Qed.

End OptionalParts.

(** X14. The pattern of a [ListFunction] only adds a [LIKE] clause at the
    end, its text between single quotes as it is: the statement is the
    statement without pattern, followed by the clause exactly when the
    pattern is a non-empty string. *)
Theorem list_function_like_clause (database : string) (like : option string)
    (aggregate : bool) :
  ListFunction.compile (ListFunction.mk database like aggregate)
  = ListFunction.compile (ListFunction.mk database None aggregate)
      ++ match like with
         | Some pattern => if pattern =? "" then "" else " LIKE '" ++ pattern ++ "'"
         | None => ""
         end.
Proof.
  unfold ListFunction.compile, ListFunction.like_truthy.
  cbn [ListFunction.database ListFunction.like ListFunction.aggregate].
  cbv zeta.
  destruct like as [pattern |].
  - destruct (pattern =? ""); cbn [negb].
    + rewrite append_nil_r. reflexivity.
    + destruct aggregate; rewrite !append_assoc; reflexivity.
  - rewrite append_nil_r. reflexivity.
Qed.

(** ** What [a2u] returns *)




Example a2u_utf8 : a2u (PyBytes [x2f; x6c; x69; x62]) = OK "/lib".
Proof. reflexivity. Qed.

Example a2u_not_utf8 : a2u (PyBytes [xc3; x28]) = Raise UnicodeDecodeError.
Proof. reflexivity. Qed.

(** ** The schema literal is pretty-printed JSON *)




















Section AvroLiteral.

Context `{Host}.


End AvroLiteral.
